(** * skbio.core.workflow: the Workflow engine

    A shallow embedding of [src/skbio/core/workflow.py] and the properties of
    its pipeline executor: method ordering, requirement gating, short
    circuiting, the debug trace and the construction of instances.

    Conventions of the embedding.
    - A Python function object is a record [pyfunc] carrying [__name__], the
      [priority] attribute (absent unless [Workflow.method] set it) and its
      code, a computation in the monad [M] (instance state plus exceptions).
    - User code (method bodies, [initialize_state]) assigns [self.state] and
      [self.failed]; it may read the whole instance and may raise.  A method
      body may also call other methods of the instance ([stmt], [def_calling]):
      the call goes through the attribute of the instance, hence through the
      traced wrapper when [_setup_debug] installed one.
    - Option values are the hashable atoms [None], bools, ints and strings.
    - [deepcopy] is the identity on the immutable states used here;
      [time()] is the [n]-th reading of a clock given as a parameter. *)

From stdpp Require Import gmap strings list sorting.
From Stdlib Require Import ZArith.

Local Open Scope string_scope.
Local Open Scope Z_scope.

(** ** Python values and exceptions *)

Inductive pyval : Type :=
  | PNone
  | PBool (b : bool)
  | PInt (z : Z)
  | PStr (s : string).

Global Instance pyval_eq_dec : EqDecision pyval.
Proof. solve_decision. Defined.

Inductive exn : Type :=
  | AttributeError (msg : string)
  | NotImplementedError (msg : string)
  | TypeError (msg : string)
  | KeyError
  | UserError (msg : string).

(** [x is None] *)
Definition is_None (v : pyval) : bool :=
  match v with PNone => true | _ => false end.

(** Numeric view of a value: [bool] is a subclass of [int]. *)
Definition as_int (v : pyval) : option Z :=
  match v with
  | PBool b => Some (if b then 1 else 0)
  | PInt z => Some z
  | _ => None
  end.

(** [a == b] on atoms. *)
Definition py_eq (a b : pyval) : bool :=
  match a, b with
  | PNone, PNone => true
  | PStr s, PStr t => bool_decide (s = t)
  | _, _ =>
      match as_int a, as_int b with
      | Some x, Some y => bool_decide (x = y)
      | _, _ => false
      end
  end.

(** [t in s] for two [str]: the substring test. *)
Fixpoint is_substring (t s : string) : bool :=
  String.prefix t s ||
  match s with
  | EmptyString => false
  | String _ s' => is_substring t s'
  end.

(** What a caller may pass as [values=] to [Workflow.requires]. *)
Inductive pyobj : Type :=
  | OAnything                  (* the module-level [anything] *)
  | ONotNone                   (* the module-level [not_none] *)
  | OAtom (v : pyval)
  | OSet (l : list pyval)
  | OList (l : list pyval)
  | OTuple (l : list pyval).

(** The [values] attribute of a [requires] object after [__init__]. *)
Inductive values_spec : Type :=
  | anything                   (* [Exists] instance *)
  | not_none                   (* [NotNone] instance *)
  | StrValues (s : string)     (* a [str], kept as it is *)
  | SetValues (l : list pyval) (* a [set] *).

(** [item in values], through [Exists.__contains__], [NotNone.__contains__],
    [str.__contains__] and [set.__contains__].  The last one hashes the
    item: on the hashable atoms of [pyval] it does not raise. *)
Definition contains (vs : values_spec) (item : pyval) : exn + bool :=
  match vs with
  | anything => inr true
  | not_none => inr (negb (is_None item))
  | StrValues s =>
      match item with
      | PStr t => inr (is_substring t s)
      | _ => inl (TypeError "'in <string>' requires string as left operand")
      end
  | SetValues l => inr (existsb (py_eq item) l)
  end.

(** The value a workflow callable returns: [None] or the [_not_executed]
    singleton. *)
Inductive retval : Type :=
  | RNone
  | _not_executed.

(** A key of the debug trace: (function name, order of execution). *)
Abbreviation trace_key := (string * nat)%type.

Section Workflow.

Context {St Item : Type}.

(** [time n] is the result of the [n]-th call of [time()]. *)
Variable time : nat → Z.

(** ** The instance *)

(** The five attributes [_setup_debug_trace] creates. *)
Record DebugInfo : Type := mkDebugInfo {
  debug_counter : nat;
  debug_trace : gset trace_key;
  debug_runtime : gmap trace_key Z;
  debug_pre_state : gmap trace_key St;
  debug_post_state : gmap trace_key St
}.

Record Workflow : Type := mkWorkflow {
  state : St;
  options : gmap string pyval;
  short_circuit : bool;
  failed : bool;
  debug : bool;
  extra_attrs : gmap string pyval;   (* attributes set from [**kwargs] *)
  traced : gset string;              (* methods [_setup_debug] replaced by wrappers *)
  debug_info : option DebugInfo;     (* [None]: no [debug_trace] attribute yet *)
  time_calls : nat                   (* how often [time()] was called *)
}.

Definition set_state (s : St) (w : Workflow) : Workflow :=
  mkWorkflow s (options w) (short_circuit w) (failed w) (debug w)
             (extra_attrs w) (traced w) (debug_info w) (time_calls w).

Definition set_failed (b : bool) (w : Workflow) : Workflow :=
  mkWorkflow (state w) (options w) (short_circuit w) b (debug w)
             (extra_attrs w) (traced w) (debug_info w) (time_calls w).

Definition set_debug_info (d : option DebugInfo) (w : Workflow) : Workflow :=
  mkWorkflow (state w) (options w) (short_circuit w) (failed w) (debug w)
             (extra_attrs w) (traced w) d (time_calls w).

Definition set_time_calls (n : nat) (w : Workflow) : Workflow :=
  mkWorkflow (state w) (options w) (short_circuit w) (failed w) (debug w)
             (extra_attrs w) (traced w) (debug_info w) n.

Definition set_extra_attrs (a : gmap string pyval) (w : Workflow) : Workflow :=
  mkWorkflow (state w) (options w) (short_circuit w) (failed w) (debug w)
             a (traced w) (debug_info w) (time_calls w).

Definition set_traced (t : gset string) (w : Workflow) : Workflow :=
  mkWorkflow (state w) (options w) (short_circuit w) (failed w) (debug w)
             (extra_attrs w) t (debug_info w) (time_calls w).

(** ** Computations on the instance *)

Definition M (A : Type) : Type := Workflow → exn + (A * Workflow).

Definition ret {A} (a : A) : M A := λ w, inr (a, w).

Definition raise {A} (e : exn) : M A := λ _, inl e.

Definition bind {A B} (c : M A) (k : A → M B) : M B :=
  λ w, match c w with
       | inl e => inl e
       | inr (a, w') => k a w'
       end.

Definition get : M Workflow := λ w, inr (w, w).

Definition modify (f : Workflow → Workflow) : M unit := λ w, inr (tt, f w).

Notation "x <- c ;; k" := (bind c (λ x, k))
  (at level 100, c at next level, right associativity).
Notation "c ;;; k" := (bind c (λ _, k))
  (at level 100, right associativity).

(** [time()] *)
Definition read_time : M Z :=
  λ w, inr (time (time_calls w), set_time_calls (S (time_calls w)) w).

(** Reading one of the debug attributes of [self]. *)
Definition get_debug : M DebugInfo :=
  λ w, match debug_info w with
       | Some d => inr (d, w)
       | None => inl (AttributeError "doesn't have debug_trace!")
       end.

(** ** Function objects and user code *)

Record pyfunc : Type := mkFunc {
  __name__ : string;
  priority : option Z;     (* the [priority] attribute, when present *)
  code : M retval
}.

(** What a user-written body does to [self]: it may raise, or return the new
    [self.state] and [self.failed]. *)
Definition body : Type := Workflow → exn + (St * bool).

Definition run_body (b : body) : M unit :=
  λ w, match b w with
       | inl e => inl e
       | inr (s, f) => inr (tt, set_failed f (set_state s w))
       end.

(** [def name(self): body] *)
Definition def (name : string) (b : body) : pyfunc :=
  mkFunc name None (run_body b ;;; ret RNone).

(** ** The decorators *)

(** [Workflow.method]: marks a function as a workflow method. *)
Definition method (priority : Z) (func : pyfunc) : pyfunc :=
  mkFunc (__name__ func) (Some priority) (code func).

(** A [Workflow.requires] object. *)
Record requires : Type := mkRequires {
  req_option : option string;
  values : values_spec;
  required_state : option (St → bool)
}.

(** [requires.__init__(option=None, values=anything, state=None)].  A [set]
    is kept; a [str] is kept as a [str]; any other iterable is turned into a
    set; anything else becomes a one-element set.  Sets are lists here:
    only membership is ever asked of them. *)
Definition requires_init (opt : option string) (vals : pyobj)
    (st : option (St → bool)) : requires :=
  mkRequires opt
    (match vals with
     | OAnything => anything
     | ONotNone => not_none
     | OSet l => SetValues l
     | OAtom (PStr s) => StrValues s
     | OList l => SetValues l
     | OTuple l => SetValues l
     | OAtom v => SetValues [v]
     end)
    st.

Definition lift {A} (r : exn + A) : M A :=
  λ w, match r with inl e => inl e | inr a => inr (a, w) end.

(** [self.values is not_none] *)
Definition is_not_none (vs : values_spec) : bool :=
  match vs with not_none => true | _ => false end.

(** The closure [decorated] built by [requires.__call__]. *)
Definition decorated (self : requires) (func : pyfunc) : M retval :=
  dec_self <- get ;;
  if match required_state self with
     | Some p => negb (p (state dec_self))
     | None => false
     end
  then ret _not_executed
  else
    match req_option self with
    | None => code func ;;; ret RNone
    | Some s_opt =>
        match options dec_self !! s_opt with
        | Some val =>
            if is_not_none (values self) && negb (is_None val)
            then code func ;;; ret RNone
            else
              ok <- lift (contains (values self) val) ;;
              if ok : bool then code func ;;; ret RNone
              else ret _not_executed
        | None => ret _not_executed
        end
    end.

(** [requires.__call__]: [update_wrapper] copies [__name__] and the
    function's attributes, hence [priority]. *)
Definition requires_call (self : requires) (func : pyfunc) : pyfunc :=
  mkFunc (__name__ func) (priority func) (decorated self func).

(** ** Debug tracing *)

Definition empty_debug : DebugInfo := mkDebugInfo 0 ∅ ∅ ∅ ∅.

Definition _setup_debug_trace : pyfunc :=
  mkFunc "_setup_debug_trace" None
    (modify (set_debug_info (Some empty_debug)) ;;; ret RNone).

(** The closure [wrapped] built by [_debug_trace_wrapper]. *)
Definition wrapped (func : pyfunc) : M retval :=
  d <- get_debug ;;
  self <- get ;;
  let exec_order := debug_counter d in
  let name := __name__ func in
  let key := (name, exec_order) in
  let pre_state := state self in
  modify (set_debug_info (Some
    (mkDebugInfo (S (debug_counter d)) ({[key]} ∪ debug_trace d)
       (debug_runtime d) (debug_pre_state d) (debug_post_state d)))) ;;;
  start_time <- read_time ;;
  r <- code func ;;
  match r with
  | _not_executed =>
      d <- get_debug ;;
      if bool_decide (key ∈ debug_trace d)
      then modify (set_debug_info (Some
             (mkDebugInfo (debug_counter d) (debug_trace d ∖ {[key]})
                (debug_runtime d) (debug_pre_state d) (debug_post_state d)))) ;;;
           ret RNone
      else raise KeyError
  | RNone =>
      now <- read_time ;;
      d <- get_debug ;;
      self <- get ;;
      modify (set_debug_info (Some
        (mkDebugInfo (debug_counter d) (debug_trace d)
           (<[key := now - start_time]> (debug_runtime d))
           (<[key := pre_state]> (debug_pre_state d))
           (<[key := state self]> (debug_post_state d))))) ;;;
      ret RNone
  end.

Definition _debug_trace_wrapper (func : pyfunc) : pyfunc :=
  mkFunc (__name__ func) (priority func) (wrapped func).

(** ** Classes and attribute lookup *)

(** A subclass of [Workflow]: its [initialize_state] (when it overrides the
    inherited one) and the other functions of its body, in the order they
    are written. *)
Record WorkflowClass : Type := mkClass {
  initialize_state : option (Item → body);
  methods : list pyfunc
}.

(** The class namespace: a later [def] of a name replaces an earlier one. *)
Definition class_dict (cls : WorkflowClass) : gmap string pyfunc :=
  foldl (λ d f, <[__name__ f := f]> d) ∅ (methods cls).

(** The names in [dir(self)] that are bound to functions of the subclass;
    [dir] returns names in sorted order. *)
Definition dir_methods (cls : WorkflowClass) : list string :=
  merge_sort String.le (map fst (map_to_list (class_dict cls))).

(** [dir(object)] and [dir(Workflow)] of the Python 2 runtime. *)
Definition dir_object : list string :=
  ["__class__"; "__delattr__"; "__doc__"; "__format__"; "__getattribute__";
   "__hash__"; "__init__"; "__new__"; "__reduce__"; "__reduce_ex__";
   "__repr__"; "__setattr__"; "__sizeof__"; "__str__"; "__subclasshook__"].

Definition dir_Workflow : list string :=
  (["__call__"; "__dict__"; "__module__"; "__weakref__";
   "_all_wf_methods"; "_debug_trace_wrapper"; "_setup_debug";
   "_setup_debug_trace"; "initialize_state"; "method"; "requires"]
  ++ dir_object)%list.

(** [getattr(self, attrname)] for a function of the subclass: the instance
    attribute installed by [_setup_debug] when there is one, the method of
    the class otherwise. *)
Definition getattr (cls : WorkflowClass) (self : Workflow)
    (attrname : string) : option pyfunc :=
  attr ← class_dict cls !! attrname;
  Some (if bool_decide (attrname ∈ traced self)
        then _debug_trace_wrapper attr else attr).

(** [hasattr(self, k)] *)
Definition hasattr (cls : WorkflowClass) (self : Workflow) (k : string) : bool :=
  bool_decide (k ∈ ["options"; "short_circuit"; "failed"; "debug"; "state"])
  || bool_decide (k ∈ dir_Workflow)
  || bool_decide (k ∈ dir_methods cls)
  || bool_decide (is_Some (extra_attrs self !! k))
  || match debug_info self with
     | Some _ => bool_decide (k ∈ ["debug_counter"; "debug_trace";
                   "debug_runtime"; "debug_pre_state"; "debug_post_state"])
     | None => false
     end.

(** [Workflow._setup_debug]: every method of the subclass whose name is not
    a member of the base class is replaced by its traced version. *)
Definition _setup_debug (cls : WorkflowClass) : M unit :=
  modify (set_traced (list_to_set
    (filter (λ attrname, attrname ∉ dir_Workflow) (dir_methods cls)))).

(** ** Methods that call methods *)

(** The statements of a method body: assignments to [self.state] and
    [self.failed], calls [self.name()] of other methods, sequences and
    branches on the instance. *)
Inductive stmt : Type :=
  | Assign (b : body)
  | Call (name : string)
  | Seq (s1 s2 : stmt)
  | If (c : Workflow → bool) (s1 s2 : stmt).

(** [self.name()]: the attribute is looked up on the instance at the time of
    the call, so with debug it is the wrapper [_setup_debug] installed. *)
Definition call_method (cls : WorkflowClass) (name : string) : M retval :=
  self <- get ;;
  match getattr cls self name with
  | Some f => code f
  | None => raise (AttributeError ("object has no attribute " ++ name))
  end.

Fixpoint exec (cls : WorkflowClass) (s : stmt) : M unit :=
  match s with
  | Assign b => run_body b
  | Call name => call_method cls name ;;; ret tt
  | Seq s1 s2 => exec cls s1 ;;; exec cls s2
  | If c s1 s2 => self <- get ;; if c self then exec cls s1 else exec cls s2
  end.

(** [def name(self): s], where [cls] holds the methods [s] calls, as the
    class of the instance defines them (the part of the class body written
    before this definition, when no name is defined twice). *)
Definition def_calling (cls : WorkflowClass) (name : string) (s : stmt) : pyfunc :=
  mkFunc name None (exec cls s ;;; ret RNone).

(** ** Ordering the workflow methods *)

(** [sorted(l, key=key, reverse=True)]: descending keys, and elements with
    equal keys stay in the order they have in [l]. *)
Fixpoint insert_reverse {A} (key : A → Z) (x : A) (l : list A) : list A :=
  match l with
  | [] => [x]
  | y :: l' =>
      if bool_decide (key x < key y) then y :: insert_reverse key x l'
      else x :: l
  end.

Definition sorted_reverse {A} (key : A → Z) (l : list A) : list A :=
  foldr (insert_reverse key) [] l.

(** [getattr(x, 'priority')] on an object that has the attribute. *)
Definition priority_key (x : pyfunc) : Z := default 0 (priority x).

Definition _all_wf_methods (cls : WorkflowClass) (self : Workflow) : list pyfunc :=
  let methods :=
    omap (λ item, obj ← getattr cls self item;
                  if priority obj is Some _ then Some obj else None)
         (dir_methods cls) in
  let methods_sorted := sorted_reverse priority_key methods in
  if debug self then _setup_debug_trace :: methods_sorted else methods_sorted.

(** ** Running items *)

(** The inner loop of [__call__]. *)
Fixpoint run_workflow (workflow : list pyfunc) : M unit :=
  match workflow with
  | [] => ret tt
  | func :: rest =>
      self <- get ;;
      if short_circuit self && failed self then ret tt
      else code func ;;; run_workflow rest
  end.

Definition call_initialize_state (cls : WorkflowClass) (item : Item) : M unit :=
  match initialize_state cls with
  | Some f => run_body (f item)
  | None => raise (NotImplementedError "Must implement this method")
  end.

(** One iteration of the outer loop, up to the [yield]. *)
Definition process_item (cls : WorkflowClass) (workflow : list pyfunc)
    (item : Item) : M unit :=
  modify (set_failed false) ;;;
  call_initialize_state cls item ;;;
  run_workflow workflow.

(** What one iteration yields: the state under the default success
    callback, the value of a callback otherwise, or nothing. *)
Definition yielded {R} (success_callback fail_callback : option (Workflow → R))
    (self : Workflow) : list (St + R) :=
  if failed self then
    match fail_callback with
    | Some f => [inr (f self)]
    | None => []
    end
  else
    match success_callback with
    | Some f => [inr (f self)]
    | None => [inl (state self)]
    end.

Fixpoint iterate {R} (cls : WorkflowClass) (workflow : list pyfunc)
    (success_callback fail_callback : option (Workflow → R))
    (iter_ : list Item) (self : Workflow) : list (St + R) * (exn + Workflow) :=
  match iter_ with
  | [] => ([], inr self)
  | item :: rest =>
      match process_item cls workflow item self with
      | inl e => ([], inl e)
      | inr (_, self') =>
          let '(out, fin) :=
            iterate cls workflow success_callback fail_callback rest self' in
          ((yielded success_callback fail_callback self' ++ out)%list, fin)
      end
  end.

(** [Workflow.__call__]: the values the generator yields, in order, and how
    it ends: exhausted, with the instance as it is then, or by an
    exception. *)
Definition Workflow_call {R} (cls : WorkflowClass) (self : Workflow)
    (iter_ : list Item) (success_callback fail_callback : option (Workflow → R))
    : list (St + R) * (exn + Workflow) :=
  let workflow := _all_wf_methods cls self in
  iterate cls workflow success_callback fail_callback iter_ self.

(** ** Construction *)

Fixpoint set_kwargs (cls : WorkflowClass) (kwargs : list (string * pyval)) : M unit :=
  match kwargs with
  | [] => ret tt
  | (k, v) :: rest =>
      self <- get ;;
      if hasattr cls self k then raise (AttributeError (k ++ " exists in self!"))
      else modify (set_extra_attrs (<[k := v]> (extra_attrs self))) ;;;
           set_kwargs cls rest
  end.

(** [Workflow.__init__(state, short_circuit, debug, options, **kwargs)] *)
Definition Workflow_init (cls : WorkflowClass) (state0 : St)
    (short_circuit0 debug0 : bool) (options0 : option (gmap string pyval))
    (kwargs : gmap string pyval) : exn + Workflow :=
  let self := mkWorkflow state0 (default ∅ options0) short_circuit0 false
                debug0 ∅ ∅ None 0 in
  match (set_kwargs cls (map_to_list kwargs) ;;;
         if debug0 then _setup_debug cls else ret tt) self with
  | inl e => inl e
  | inr (_, self') => inr self'
  end.

(** ** Notions used in the statements *)

(** Functions written by the user of the engine: plain definitions under any
    stack of the two decorators. *)
Inductive user_function : pyfunc → Prop :=
  | uf_def name b : user_function (def name b)
  | uf_method p f : user_function f → user_function (method p f)
  | uf_requires r f : user_function f → user_function (requires_call r f).

(** The same, with bodies that may call the methods of a class of such
    functions. *)
Inductive method_function : pyfunc → Prop :=
  | mf_def name b : method_function (def name b)
  | mf_calling cls name s :
      (∀ f, f ∈ methods cls → method_function f) →
      method_function (def_calling cls name s)
  | mf_method p f : method_function f → method_function (method p f)
  | mf_requires r f : method_function f → method_function (requires_call r f).

(** [w'] differs from [w] in [state] and [failed] at most. *)
Definition same_frame (w w' : Workflow) : Prop :=
  w' = set_failed (failed w') (set_state (state w') w).

(** The decision [decorated] takes, as a function of the requirement, the
    options and the state: [inr true] when the wrapped function is called,
    [inr false] when [_not_executed] is returned. *)
Definition requirement_met (self : requires) (w : Workflow) : exn + bool :=
  if match required_state self with
     | Some p => negb (p (state w))
     | None => false
     end
  then inr false
  else
    match req_option self with
    | None => inr true
    | Some s_opt =>
        match options w !! s_opt with
        | Some val =>
            if is_not_none (values self) && negb (is_None val) then inr true
            else contains (values self) val
        | None => inr false
        end
    end.

(** Descending keys; among equal keys, the order [B] of the input. *)
Definition desc_then {A} (key : A → Z) (B : relation A) : relation A :=
  λ a b, key b < key a ∨ (key a = key b ∧ B a b).

(** [a < b] on [str]. *)
Definition name_lt (a b : string) : Prop := (a ?= b)%string = Lt.

(** [f] is run before [g]: higher priority, or the same priority and a
    smaller name. *)
Definition precedes : relation pyfunc :=
  desc_then priority_key (λ f g, name_lt (__name__ f) (__name__ g)).

(** The methods [_all_wf_methods] collects before it sorts them. *)
Definition wf_methods (cls : WorkflowClass) (self : Workflow) : list pyfunc :=
  omap (λ item, obj ← getattr cls self item;
                if priority obj is Some _ then Some obj else None)
       (dir_methods cls).

(** The debug attributes and the instance with which [wrapped] calls the
    function it wraps. *)
Definition entry_debug (func : pyfunc) (d : DebugInfo) : DebugInfo :=
  mkDebugInfo (S (debug_counter d))
    ({[(__name__ func, debug_counter d)]} ∪ debug_trace d)
    (debug_runtime d) (debug_pre_state d) (debug_post_state d).

Definition traced_entry (func : pyfunc) (d : DebugInfo) (w : Workflow) : Workflow :=
  set_time_calls (S (time_calls w))
    (set_debug_info (Some (entry_debug func d)) w).

(** The instance [wrapped] leaves, from the one the wrapped function left. *)
Definition traced_exit (key : trace_key) (pre_state : St) (start_time : Z)
    (r : retval) (d : DebugInfo) (w : Workflow) : Workflow :=
  match r with
  | _not_executed =>
      set_debug_info (Some
        (mkDebugInfo (debug_counter d) (debug_trace d ∖ {[key]})
           (debug_runtime d) (debug_pre_state d) (debug_post_state d))) w
  | RNone =>
      set_debug_info (Some
        (mkDebugInfo (debug_counter d) (debug_trace d)
           (<[key := time (time_calls w) - start_time]> (debug_runtime d))
           (<[key := pre_state]> (debug_pre_state d))
           (<[key := state w]> (debug_post_state d))))
        (set_time_calls (S (time_calls w)) w)
  end.

(** The callables [_all_wf_methods] returns for a class of user functions. *)
Inductive workflow_step : pyfunc → Prop :=
  | ws_setup : workflow_step _setup_debug_trace
  | ws_plain f : user_function f → workflow_step f
  | ws_traced f : user_function f → workflow_step (_debug_trace_wrapper f).

(** [len(self.debug_trace)], 0 before the attribute exists. *)
Definition trace_size (w : Workflow) : nat :=
  match debug_info w with
  | Some d => size (debug_trace d)
  | None => 0
  end.

(** The debug attributes are consistent: every recorded key was numbered
    below the counter, and the three maps have the recorded keys as their
    keys. *)
Definition trace_inv (d : DebugInfo) : Prop :=
  (∀ key, key ∈ debug_trace d → (key.2 < debug_counter d)%nat) ∧
  dom (debug_runtime d) = debug_trace d ∧
  dom (debug_pre_state d) = debug_trace d ∧
  dom (debug_post_state d) = debug_trace d.

(** [w'] has the settings of [w]: the options, [short_circuit], [debug],
    the attributes given at construction and the installed wrappers. *)
Definition same_settings (w w' : Workflow) : Prop :=
  options w' = options w ∧ short_circuit w' = short_circuit w ∧
  debug w' = debug w ∧ extra_attrs w' = extra_attrs w ∧
  traced w' = traced w.

(** The debug attributes while the traced calls with the keys [P] are
    running: every recorded key was numbered below the counter, no two
    recorded keys have the same number, and the three maps have as keys the
    recorded keys of the calls that have returned. *)
Definition trace_inv_during (P : gset trace_key) (d : DebugInfo) : Prop :=
  (∀ key, key ∈ debug_trace d → (key.2 < debug_counter d)%nat) ∧
  (∀ k1 k2, k1 ∈ debug_trace d → k2 ∈ debug_trace d → k1.2 = k2.2 → k1 = k2) ∧
  P ⊆ debug_trace d ∧
  dom (debug_runtime d) = debug_trace d ∖ P ∧
  dom (debug_pre_state d) = debug_trace d ∖ P ∧
  dom (debug_post_state d) = debug_trace d ∖ P.

(** From [d] to [d'] the counter did not go back, no recorded key was lost,
    and the new keys were numbered from the counter of [d] on. *)
Definition trace_extends (d d' : DebugInfo) : Prop :=
  (debug_counter d ≤ debug_counter d')%nat ∧
  debug_trace d ⊆ debug_trace d' ∧
  ∀ key, key ∈ debug_trace d' → key ∉ debug_trace d →
         (debug_counter d ≤ key.2)%nat.

(** A computation that keeps the settings and, when the debug attributes
    exist, moves them in this way. *)
Definition well_behaved {A} (c : M A) : Prop :=
  ∀ w a w', c w = inr (a, w') →
    same_settings w w' ∧
    ∀ P d, debug_info w = Some d → trace_inv_during P d →
      ∃ d', debug_info w' = Some d' ∧ trace_inv_during P d' ∧
            trace_extends d d'.

(** The instance at each [yield] point of [__call__], whether or not
    something is yielded there. *)
Fixpoint snapshots (cls : WorkflowClass) (workflow : list pyfunc)
    (iter_ : list Item) (self : Workflow) : list Workflow :=
  match iter_ with
  | [] => []
  | item :: rest =>
      match process_item cls workflow item self with
      | inl _ => []
      | inr (_, self') => self' :: snapshots cls workflow rest self'
      end
  end.

(** The names and priorities of the workflow methods of a class, in the
    order of [dir]. *)
Definition wf_signature (cls : WorkflowClass) : list (string * option Z) :=
  omap (λ n, f ← class_dict cls !! n;
             if priority f is Some _ then Some (__name__ f, priority f)
             else None)
       (dir_methods cls).

End Workflow.

(** The acceptable values denoted by a [values=] argument that is a set, a
    list, a tuple or a single literal other than a string. *)
Definition explicit_values (vals : pyobj) : option (list pyval) :=
  match vals with
  | OSet l => Some l
  | OList l => Some l
  | OTuple l => Some l
  | OAtom (PStr _) => None
  | OAtom v => Some [v]
  | OAnything => None
  | ONotNone => None
  end.

Notation "x <- c ;; k" := (bind c (λ x, k))
  (at level 100, c at next level, right associativity).
Notation "c ;;; k" := (bind c (λ _, k))
  (at level 100, right associativity).

Arguments Workflow : clear implicits.
Arguments DebugInfo : clear implicits.
Arguments pyfunc : clear implicits.
Arguments body : clear implicits.
Arguments M : clear implicits.
Arguments requires : clear implicits.
Arguments WorkflowClass : clear implicits.
Arguments method_function {St} Item time f.

(** Whether a computation raised; the value and the instance it returns
    ([dflt] when it raised). *)
Definition raised {A} (r : exn + A) : bool :=
  match r with
  | inl _ => true
  | inr _ => false
  end.

Definition result_value {St A} (r : exn + (A * Workflow St)) (dflt : A) : A :=
  match r with
  | inr (a, _) => a
  | inl _ => dflt
  end.

Definition result_instance {St A} (r : exn + (A * Workflow St))
    (dflt : Workflow St) : Workflow St :=
  match r with
  | inr (_, w) => w
  | inl _ => dflt
  end.

(** A clock for the examples: the [n]-th reading is [n]. *)
Definition tick (n : nat) : Z := Z.of_nat n.

(** ** The sequence processor of the module documentation *)

Module SequenceProcessor.

Definition nuc_pattern : string := "AATTG".

(** [s[:n]] and [s[n:]] *)
Definition slice_to (n : nat) (s : string) : string := String.substring 0 n s.
Definition slice_from (n : nat) (s : string) : string :=
  String.substring n (String.length s - n) s.

Definition has_nuc_pattern (s : string) : bool :=
  bool_decide (slice_to (String.length nuc_pattern) s = nuc_pattern).

Definition check_length : pyfunc string :=
  method 100
    (def "check_length" (λ self,
       inr (state self,
            if bool_decide (String.length (state self) < 10)%nat then true
            else failed self))).

Definition truncate : pyfunc string :=
  method 90
    (requires_call (requires_init None OAnything (Some has_nuc_pattern))
       (def "truncate" (λ self,
          inr (slice_from (String.length nuc_pattern) (state self),
               failed self)))).

Definition reverse : pyfunc string :=
  method 80
    (requires_call (requires_init (Some "reverse") (OAtom (PBool true)) None)
       (def "reverse" (λ self, inr (String.rev (state self), failed self)))).

Definition cls : WorkflowClass string string :=
  mkClass (Some (λ item self, inr (item, failed self)))
          [check_length; truncate; reverse].

Definition seqs : list string :=
  ["AAAAAAATTTTTTT"; "ATAGACC"; "AATTGCCGGAC"; "ATATGAACAAA"].

Definition success_f (obj : Workflow string) : string := "SUCCESS: " ++ state obj.
Definition fail_f (obj : Workflow string) : string := "FAIL: " ++ state obj.

(** [SequenceProcessor(state=None, options={'reverse': reverse},
    debug=debug)]; the initial state is never read, the empty string stands
    for it. *)
Definition new (debug reverse : bool) : exn + Workflow string :=
  Workflow_init cls "" true debug (Some {["reverse" := PBool reverse]}) ∅.

(** The instance [new debug reverse] returns. *)
Definition instance (debug reverse : bool) : Workflow string :=
  mkWorkflow "" {["reverse" := PBool reverse]} true false debug ∅
    (if debug then list_to_set ["check_length"; "reverse"; "truncate"] else ∅)
    None 0.

End SequenceProcessor.

(** Two methods of equal priority, defined in the order [zeta], [alpha]. *)
Module TieOrder.

Definition zeta : pyfunc string :=
  method 0 (def "zeta" (λ self, inr (state self ++ "z", failed self))).

Definition alpha : pyfunc string :=
  method 0 (def "alpha" (λ self, inr (state self ++ "a", failed self))).

Definition cls : WorkflowClass string string :=
  mkClass (Some (λ item self, inr (item, failed self))) [zeta; alpha].

End TieOrder.

(** A class whose first method requires an option, in the manner of the
    class [Ex] of the module documentation. *)
Module Gated.

Definition do_something : pyfunc string :=
  method 2
    (requires_call (requires_init (Some "foo") ONotNone None)
       (def "do_something" (λ self, inr (state self, failed self)))).

Definition do_something_else : pyfunc string :=
  method 1 (def "do_something_else" (λ self, inr (state self, failed self))).

Definition awesome : pyfunc string :=
  def "do_something_awesome" (λ self, inr ("awesome", failed self)).

Definition do_something_awesome : pyfunc string :=
  requires_call
    (requires_init (Some "foobar") (OList [PInt 1; PInt 2; PInt 3]) None)
    awesome.

Definition with_foobar (v : pyval) : Workflow string :=
  mkWorkflow "" {["foobar" := v]} true false false ∅ ∅ None 0.

Definition cls : WorkflowClass string string :=
  mkClass (Some (λ item self, inr (item, failed self)))
          [do_something; do_something_else].

(** [Gated(state=None, debug=True)] and the same instance once
    [_setup_debug_trace] has run. *)
Definition wf : Workflow string :=
  mkWorkflow "" ∅ true false true ∅
    (list_to_set ["do_something"; "do_something_else"]) None 0.


(** After one item, with no option set. *)
Definition final : Workflow string :=
  result_instance (process_item cls (_all_wf_methods tick cls wf) "x" wf) wf.

Definition final_debug : DebugInfo string :=
  default empty_debug (debug_info final).

End Gated.

(** A class whose first step calls a helper method that is not a workflow
    method, and fails. *)
Module Helper.

Definition helper : pyfunc string :=
  def "helper" (λ self, inr (state self ++ "h", failed self)).

Definition helpers : WorkflowClass string string :=
  mkClass (Some (λ item self, inr (item, failed self))) [helper].

Definition a : pyfunc string :=
  method 2
    (def_calling tick helpers "a"
       (Seq (Call "helper") (Assign (λ self, inr (state self, true))))).

Definition b : pyfunc string :=
  method 1 (def "b" (λ self, inr (state self ++ "b", failed self))).

Definition cls : WorkflowClass string string :=
  mkClass (Some (λ item self, inr (item, failed self))) [helper; a; b].

(** [Helper(state=None, debug=True)] *)
Definition wf : Workflow string :=
  mkWorkflow "" ∅ true false true ∅
    (list_to_set ["a"; "b"; "helper"]) None 0.

(** After one item. *)
Definition final : Workflow string :=
  result_instance (process_item cls (_all_wf_methods tick cls wf) "x" wf) wf.

Definition final_debug : DebugInfo string :=
  default empty_debug (debug_info final).

End Helper.

(** A requirement on a string literal, and the same literal in a list. *)
Module Literal.

Definition mark : pyfunc string :=
  def "mark" (λ self, inr ("ran", failed self)).

Definition needs_fast : pyfunc string :=
  requires_call (requires_init (Some "mode") (OAtom (PStr "fast")) None) mark.

Definition needs_fast_listed : pyfunc string :=
  requires_call (requires_init (Some "mode") (OList [PStr "fast"]) None) mark.

Definition with_mode (v : pyval) : Workflow string :=
  mkWorkflow "" {["mode" := v]} true false false ∅ ∅ None 0.

End Literal.

(** ** Basic facts about the embedding *)

(** Concrete runs of the sequence processor with debug enabled and the
    option [reverse] set. *)
Module Runs.

Import SequenceProcessor.

Definition self : Workflow string := instance true true.

(** The ordered workflow: the reset, then [check_length], [truncate] and
    [reverse], all traced. *)
Definition workflow : list (pyfunc string) := _all_wf_methods tick cls self.

Definition pre : list (pyfunc string) := take 1%nat workflow.
Definition func : pyfunc string := default _setup_debug_trace (workflow !! 1%nat).
Definition post : list (pyfunc string) := drop 2%nat workflow.

(** The failing item [ATAGACC]: before and after the traced
    [check_length]. *)
Definition before_check : Workflow string :=
  result_instance (process_item cls pre "ATAGACC" self) self.

Definition after_check : Workflow string :=
  result_instance (code func before_check) before_check.

Definition after_wrapped : Workflow string :=
  result_instance (wrapped tick check_length before_check) before_check.

(** The first item of the documentation, [AAAAAAATTTTTTT], processed. *)
Definition after_first : Workflow string :=
  result_instance
    (process_item cls (_all_wf_methods tick cls self) "AAAAAAATTTTTTT" self)
    self.

(** The run without debug and with both callbacks of the documentation. *)
Definition plain_run : list (string + string) * (exn + Workflow string) :=
  Workflow_call tick cls (instance false false) seqs
    (Some success_f) (Some fail_f).

Definition plain_final : Workflow string :=
  match plain_run.2 with
  | inr fin => fin
  | inl _ => instance false false
  end.

End Runs.

(** Further concrete cases. *)
Module Cases.

Import SequenceProcessor.

(** A class that defines nothing. *)
Definition bare : WorkflowClass string string := mkClass None [].

(** The sequence processor with debug and without short circuiting. *)
Definition lenient : Workflow string :=
  mkWorkflow "" {["reverse" := PBool true]} false false true ∅
    (list_to_set ["check_length"; "reverse"; "truncate"]) None 0.

(** An instance at the start of the short item [ATAGACC], the debug
    attributes just reset. *)
Definition reset_short (self : Workflow string) : Workflow string :=
  set_debug_info (Some empty_debug) (set_state "ATAGACC" self).

Definition checked : Workflow string :=
  result_instance
    (code check_length
       (traced_entry check_length empty_debug (reset_short Runs.self)))
    Runs.self.

Definition lenient_steps : list (pyfunc string) :=
  sorted_reverse priority_key (wf_methods tick cls lenient).

Definition lenient_done : Workflow string :=
  result_instance (run_workflow lenient_steps (reset_short lenient)) lenient.

Definition plain_done : Workflow string :=
  result_instance
    (process_item cls (_all_wf_methods tick cls (instance false false))
       "ATAGACC" (instance false false))
    (instance false false).

(** A start state with the nucleotide pattern. *)
Definition patterned : Workflow string :=
  set_state "AATTGCCGGAC" (instance false false).

(** The sequence processor with an [initialize_state] that rejects every
    item, and an instance that has processed one item before. *)
Definition rejecting : WorkflowClass string string :=
  mkClass (Some (λ item self, inr (item, true)))
          [check_length; truncate; reverse].

Definition rejected : Workflow string :=
  result_instance
    (call_initialize_state rejecting "ATAGACC" (set_failed false Runs.after_first))
    Runs.after_first.

End Cases.

(** ** Further notions *)

Section MoreNotions.

Context {St Item : Type}.

(** Calling every function of a list in turn, without any test between
    them. *)
Definition run_all (l : list (pyfunc St)) : M St unit :=
  foldr (λ f k, code f ;;; k) (ret tt) l.

(** Two instances agree on what user code is meant to see: the state, the
    options, the failure flag, the short-circuit setting and the attributes
    given at construction. *)
Definition agree (w w' : Workflow St) : Prop :=
  state w = state w' ∧ options w = options w' ∧ failed w = failed w' ∧
  short_circuit w = short_circuit w' ∧ extra_attrs w = extra_attrs w'.

(** User code that reads nothing of the debug machinery. *)
Definition body_plain (b : body St) : Prop :=
  ∀ w w', agree w w' → b w = b w'.

Inductive plain_function : pyfunc St → Prop :=
  | pf_def name b : body_plain b → plain_function (def name b)
  | pf_method p f : plain_function f → plain_function (method p f)
  | pf_requires r f : plain_function f → plain_function (requires_call r f).

(** The outcomes of one computation on two instances correspond: the same
    exception, or instances that agree. *)
Definition same_outcome {A B} (r : exn + (A * Workflow St))
    (r' : exn + (B * Workflow St)) : Prop :=
  match r, r' with
  | inl e, inl e' => e = e'
  | inr (_, w), inr (_, w') => agree w w'
  | _, _ => False
  end.

(** The same for the way a generator ends. *)
Definition same_end (r r' : exn + Workflow St) : Prop :=
  match r, r' with
  | inl e, inl e' => e = e'
  | inr w, inr w' => agree w w'
  | _, _ => False
  end.

(** A step of the workflow of an instance with debug, beside the step at
    the same place in the workflow of an instance without: the function
    itself or its traced version. *)
Definition traced_or_same (time : nat → Z) (fp fd : pyfunc St) : Prop :=
  plain_function fp ∧ (fd = fp ∨ fd = _debug_trace_wrapper time fp).

End MoreNotions.

Local Open Scope nat_scope.

Section Properties.

Context {St Item : Type}.
Variable time : nat → Z.

Abbreviation Workflow := (Workflow St).
Abbreviation pyfunc := (pyfunc St).
Abbreviation WorkflowClass := (WorkflowClass St Item).

Lemma same_frame_refl (w : Workflow) : same_frame w w.
Proof. by destruct w. Qed.

Lemma same_frame_trans (w1 w2 w3 : Workflow) :
  same_frame w1 w2 → same_frame w2 w3 → same_frame w1 w3.
Proof.
  unfold same_frame. destruct w1, w2, w3; simpl.
  intros [= -> -> -> -> -> -> ->] [= -> -> -> -> -> -> ->]. done.
Qed.

Lemma same_frame_fields (w w' : Workflow) :
  same_frame w w' →
  options w' = options w ∧ short_circuit w' = short_circuit w ∧
  debug w' = debug w ∧ extra_attrs w' = extra_attrs w ∧
  traced w' = traced w ∧ debug_info w' = debug_info w ∧
  time_calls w' = time_calls w.
Proof. intros ->. by destruct w. Qed.

Lemma run_body_frame (b : body St) w u w' :
  run_body b w = inr (u, w') → same_frame w w'.
Proof.
  unfold run_body. destruct (b w) as [e|[s f]]; [done|].
  intros [= <- <-]. by destruct w.
Qed.

Lemma user_function_frame (f : pyfunc) :
  user_function f → ∀ w r w', code f w = inr (r, w') → same_frame w w'.
Proof.
  induction 1 as [name b|p f Hf IH|r f Hf IH]; intros w res w'; simpl.
  - unfold bind, ret. destruct (run_body b w) as [e|[u w1]] eqn:Hb; [done|].
    intros [= <- <-]. by eapply run_body_frame.
  - apply IH.
  - unfold decorated, bind, get, ret, lift.
    destruct (match required_state r with
              | Some p => negb (p (state w)) | None => false end).
    { intros [= <- <-]. apply same_frame_refl. }
    destruct (req_option r) as [s_opt|].
    + destruct (options w !! s_opt) as [val|].
      * destruct (is_not_none (values r) && negb (is_None val)).
        { destruct (code f w) as [e|[r1 w1]] eqn:Hc; [done|].
          intros [= <- <-]. by eapply IH. }
        destruct (contains (values r) val) as [e|[|]]; [done| |].
        { destruct (code f w) as [e|[r1 w1]] eqn:Hc; [done|].
          intros [= <- <-]. by eapply IH. }
        intros [= <- <-]. apply same_frame_refl.
      * intros [= <- <-]. apply same_frame_refl.
    + destruct (code f w) as [e|[r1 w1]] eqn:Hc; [done|].
      intros [= <- <-]. by eapply IH.
Qed.

(** *** The requirement as a predicate *)

Lemma decorated_requirement_met (self : requires St) (func : pyfunc) w :
  decorated self func w =
    match requirement_met self w with
    | inl e => inl e
    | inr true => (code func ;;; ret RNone) w
    | inr false => inr (_not_executed, w)
    end.
Proof.
  unfold decorated, requirement_met, bind, get, ret, lift.
  destruct (match required_state self with
            | Some p => negb (p (state w)) | None => false end); [done|].
  destruct (req_option self) as [s_opt|]; [|done].
  destruct (options w !! s_opt) as [val|]; [|done].
  destruct (is_not_none (values self) && negb (is_None val)); [done|].
  by destruct (contains (values self) val) as [e|[|]].
Qed.

Lemma requirement_met_frame (self : requires St) (w w' : Workflow) :
  state w' = state w → options w' = options w →
  requirement_met self w' = requirement_met self w.
Proof. unfold requirement_met. by intros -> ->. Qed.

(** *** The class namespace and [dir] *)

Lemma class_dict_lookup (cls : WorkflowClass) n f :
  class_dict cls !! n = Some f → f ∈ methods cls ∧ __name__ f = n.
Proof.
  unfold class_dict. generalize (methods cls). intros l.
  induction l as [|g l IH] using rev_ind; simpl.
  - by rewrite lookup_empty.
  - rewrite foldl_app. simpl. rewrite lookup_insert.
    case_decide as Hn.
    + intros [= <-]. split; [|done]. apply elem_of_app. right. by left.
    + intros Hl. destruct (IH Hl) as [Hin Hname]. split; [|done].
      apply elem_of_app. by left.
Qed.

Lemma class_dict_dom (cls : WorkflowClass) n :
  n ∈ dir_methods cls ↔ is_Some (class_dict cls !! n).
Proof.
  unfold dir_methods. rewrite merge_sort_Permutation.
  rewrite list_elem_of_fmap. split.
  - intros [[k f] [-> Hin%elem_of_map_to_list]]. by exists f.
  - intros [f Hf]. exists (n, f). split; [done|].
    by apply elem_of_map_to_list.
Qed.

Lemma getattr_name (cls : WorkflowClass) self n obj :
  getattr time cls self n = Some obj → __name__ obj = n.
Proof.
  unfold getattr. destruct (class_dict cls !! n) as [f|] eqn:Hf; [|done].
  simpl. apply class_dict_lookup in Hf as [_ <-].
  intros [= <-]. by case_bool_decide.
Qed.

Lemma getattr_priority (cls : WorkflowClass) self n obj :
  getattr time cls self n = Some obj →
  ∃ f, class_dict cls !! n = Some f ∧ priority obj = priority f ∧
       (obj = f ∨ obj = _debug_trace_wrapper time f).
Proof.
  unfold getattr. destruct (class_dict cls !! n) as [f|] eqn:Hf; [|done].
  simpl. intros [= <-]. exists f. case_bool_decide; auto.
Qed.

(** *** [sorted(..., reverse=True)] is a stable descending sort *)

Section Sorted.

Context {A : Type} (key : A → Z).

Lemma insert_reverse_Permutation x l : insert_reverse key x l ≡ₚ x :: l.
Proof.
  induction l as [|y l IH]; simpl; [done|].
  case_bool_decide; [|done]. rewrite IH. apply Permutation_swap.
Qed.

Lemma sorted_reverse_Permutation l : sorted_reverse key l ≡ₚ l.
Proof.
  induction l as [|x l IH]; simpl; [done|].
  by rewrite insert_reverse_Permutation, IH.
Qed.

Lemma insert_reverse_sorted (B : relation A) x l :
  StronglySorted (desc_then key B) l → Forall (B x) l →
  StronglySorted (desc_then key B) (insert_reverse key x l).
Proof.
  induction 1 as [|y l Hl IH Hy]; intros HB; simpl.
  - repeat constructor.
  - apply Forall_cons in HB as [HBy HBl]. case_bool_decide as Hlt.
    + constructor; [by apply IH|].
      rewrite insert_reverse_Permutation. constructor; [by left|done].
    + constructor; [by constructor|].
      constructor.
      { unfold desc_then. destruct (decide (key y = key x)); [right|left]; [done|lia]. }
      rewrite Forall_forall in Hy, HBl |- *. intros z Hz.
      specialize (Hy z Hz). specialize (HBl z Hz). unfold desc_then in *.
      destruct (decide (key z = key x)); [right; split; [done|done]|left; lia].
Qed.

Lemma sorted_reverse_sorted (B : relation A) l :
  StronglySorted B l → StronglySorted (desc_then key B) (sorted_reverse key l).
Proof.
  induction 1 as [|x l Hl IH Hx]; simpl; [constructor|].
  apply insert_reverse_sorted; [done|].
  by rewrite sorted_reverse_Permutation.
Qed.

End Sorted.

Lemma insert_reverse_fmap {A B} (h : A → B) (key : B → Z) x l :
  h <$> insert_reverse (key ∘ h) x l = insert_reverse key (h x) (h <$> l).
Proof.
  induction l as [|y l IH]; simpl; [done|].
  case_bool_decide; simpl; [|done]. f_equal. apply IH.
Qed.

Lemma sorted_reverse_fmap {A B} (h : A → B) (key : B → Z) l :
  h <$> sorted_reverse (key ∘ h) l = sorted_reverse key (h <$> l).
Proof.
  unfold sorted_reverse. induction l as [|x l IH]; [done|].
  change (h <$> insert_reverse (key ∘ h) x (foldr (insert_reverse (key ∘ h)) [] l)
          = insert_reverse key (h x) (foldr (insert_reverse key) [] (h <$> l))).
  by rewrite <- IH, insert_reverse_fmap.
Qed.

(** *** The order of the workflow methods *)

Lemma String_le_lt a b : String.le a b → a ≠ b → name_lt a b.
Proof.
  unfold String.le, String.leb, name_lt. intros Hle Hne.
  destruct (a ?= b)%string eqn:Hc; [|done|done].
  by apply String.compare_eq_iff in Hc.
Qed.

Lemma StronglySorted_NoDup_strict {A} (R R' : relation A) l :
  (∀ a b, R a b → a ≠ b → R' a b) →
  StronglySorted R l → NoDup l → StronglySorted R' l.
Proof.
  intros HR. induction 1 as [|x l Hl IH Hx]; intros Hnd; [constructor|].
  apply NoDup_cons in Hnd as [Hnotin Hnd]. constructor; [by apply IH|].
  rewrite Forall_forall in Hx |- *. intros y Hy. apply HR; [by apply Hx|].
  intros ->. done.
Qed.

Lemma dir_methods_NoDup (cls : WorkflowClass) : NoDup (dir_methods cls).
Proof.
  unfold dir_methods. rewrite merge_sort_Permutation.
  apply NoDup_fst_map_to_list.
Qed.

Lemma dir_methods_sorted (cls : WorkflowClass) :
  StronglySorted name_lt (dir_methods cls).
Proof.
  apply (StronglySorted_NoDup_strict String.le).
  - apply String_le_lt.
  - apply (StronglySorted_merge_sort String.le).
  - apply dir_methods_NoDup.
Qed.

Lemma omap_sorted {A B} (R : relation A) (g : A → option B) (nm : B → A) l :
  (∀ x y, g x = Some y → nm y = x) →
  StronglySorted R l → StronglySorted (λ a b, R (nm a) (nm b)) (omap g l).
Proof.
  intros Hg. induction 1 as [|x l Hl IH Hx]; simpl; [constructor|].
  destruct (g x) as [y|] eqn:Hy; [|done].
  constructor; [done|]. apply Forall_forall. intros z Hz.
  apply list_elem_of_omap in Hz as (x' & Hx' & Hgx').
  rewrite (Hg _ _ Hy), (Hg _ _ Hgx').
  rewrite Forall_forall in Hx. by apply Hx.
Qed.

Lemma all_wf_methods_eq (cls : WorkflowClass) self :
  _all_wf_methods time cls self =
    ((if debug self then [_setup_debug_trace] else [])
     ++ sorted_reverse priority_key (wf_methods time cls self))%list.
Proof. unfold _all_wf_methods, wf_methods. by destruct (debug self). Qed.

Lemma wf_methods_elem (cls : WorkflowClass) self obj :
  obj ∈ wf_methods time cls self →
  is_Some (priority obj) ∧
  ∃ f, f ∈ methods cls ∧ __name__ f = __name__ obj ∧
       (obj = f ∨ obj = _debug_trace_wrapper time f).
Proof.
  unfold wf_methods. intros (n & Hn & Hobj)%list_elem_of_omap.
  destruct (getattr time cls self n) as [o|] eqn:Hget; [|done]. simpl in Hobj.
  destruct (priority o) as [p|] eqn:Hp; [|done]. injection Hobj as <-.
  split; [by eexists|].
  destruct (getattr_priority _ _ _ _ Hget) as (f & Hf & _ & Hor).
  apply class_dict_lookup in Hf as [Hin Hname].
  exists f. split; [done|]. split; [|done].
  by destruct Hor as [-> | ->].
Qed.

Lemma wf_methods_sorted (cls : WorkflowClass) self :
  StronglySorted (λ f g, name_lt (__name__ f) (__name__ g)) (wf_methods time cls self).
Proof.
  apply (omap_sorted name_lt); [|apply dir_methods_sorted].
  intros n obj Hobj.
  destruct (getattr time cls self n) as [o|] eqn:Hget; [|done]. simpl in Hobj.
  destruct (priority o); [|done]. injection Hobj as <-.
  by eapply getattr_name.
Qed.

(** The names and priorities collected do not depend on the instance. *)
Lemma wf_methods_signature (cls : WorkflowClass) self :
  (λ f, (__name__ f, priority f)) <$> wf_methods time cls self =
  wf_signature cls.
Proof.
  unfold wf_methods, wf_signature. induction (dir_methods cls) as [|n l IH]; [done|].
  simpl. unfold getattr at 1.
  destruct (class_dict cls !! n) as [f|]; simpl; [|done].
  case_bool_decide; simpl; destruct (priority f) eqn:Hp; simpl;
    rewrite ?Hp; first [exact IH | f_equal; exact IH].
Qed.

Lemma all_wf_methods_names (cls : WorkflowClass) self self' :
  debug self' = debug self →
  __name__ <$> _all_wf_methods time cls self' =
  __name__ <$> _all_wf_methods time cls self.
Proof.
  intros Hd. rewrite !all_wf_methods_eq, !fmap_app, Hd. f_equal.
  pose (h := λ f : pyfunc, (__name__ f, priority f)).
  pose (key' := λ p : string * option Z, default 0%Z p.2).
  assert (Hn : ∀ l : list pyfunc, __name__ <$> l = fst <$> (h <$> l)).
  { intros l. rewrite <- list_fmap_compose. done. }
  rewrite !Hn.
  change priority_key with (key' ∘ h).
  rewrite !sorted_reverse_fmap. unfold h.
  by rewrite !wf_methods_signature.
Qed.

(** *** The inner loop *)

Lemma run_workflow_stop (l : list pyfunc) w :
  short_circuit w && failed w = true → run_workflow l w = inr (tt, w).
Proof.
  intros Hstop. destruct l as [|f l]; [done|].
  simpl. unfold bind, get, ret. by rewrite Hstop.
Qed.

Lemma run_workflow_cons (f : pyfunc) l w :
  short_circuit w && failed w = false →
  run_workflow (f :: l) w =
    match code f w with
    | inl e => inl e
    | inr (_, w') => run_workflow l w'
    end.
Proof. intros Hgo. simpl. unfold bind, get. by rewrite Hgo. Qed.

Lemma run_workflow_app (pre post : list pyfunc) w :
  run_workflow (pre ++ post) w =
    match run_workflow pre w with
    | inl e => inl e
    | inr (_, w') => run_workflow post w'
    end.
Proof.
  revert w. induction pre as [|f pre IH]; intros w; [done|].
  destruct (short_circuit w && failed w) eqn:Hstop.
  - by rewrite !run_workflow_stop by done.
  - rewrite <- app_comm_cons, !run_workflow_cons by done.
    destruct (code f w) as [e|[r w1]]; [done|]. apply IH.
Qed.

(** *** One traced call *)

Lemma wrapped_run (func : pyfunc) w r w' :
  wrapped time func w = inr (r, w') →
  ∃ d r1 w2 d2,
    debug_info w = Some d ∧
    code func (traced_entry func d w) = inr (r1, w2) ∧
    debug_info w2 = Some d2 ∧
    (r1 = _not_executed → (__name__ func, debug_counter d) ∈ debug_trace d2) ∧
    r = RNone ∧
    w' = traced_exit time (__name__ func, debug_counter d) (state w)
           (time (time_calls w)) r1 d2 w2.
Proof.
  unfold wrapped, bind, get_debug, get, modify, read_time, ret, raise.
  destruct (debug_info w) as [d|] eqn:Hd; [|done]. simpl.
  destruct (code func _) as [e|[r1 w2]] eqn:Hc; [done|].
  change (code func (traced_entry func d w) = inr (r1, w2)) in Hc.
  destruct r1.
  - destruct (debug_info w2) as [d2|] eqn:Hd2; [|done].
    intros [= <- <-]. by exists d, RNone, w2, d2.
  - destruct (debug_info w2) as [d2|] eqn:Hd2; [|done].
    case_bool_decide as Hin; [|done].
    intros [= <- <-]. by exists d, _not_executed, w2, d2.
Qed.

Lemma wrapped_complete (func : pyfunc) w d r1 w2 d2 :
  debug_info w = Some d →
  code func (traced_entry func d w) = inr (r1, w2) →
  debug_info w2 = Some d2 →
  (r1 = _not_executed → (__name__ func, debug_counter d) ∈ debug_trace d2) →
  wrapped time func w =
    inr (RNone, traced_exit time (__name__ func, debug_counter d) (state w)
                  (time (time_calls w)) r1 d2 w2).
Proof.
  intros Hd Hc Hd2 Hin.
  unfold wrapped, bind, get_debug, get, modify, read_time, ret, raise.
  rewrite Hd. simpl. unfold traced_entry, entry_debug in Hc. rewrite Hc.
  destruct r1; rewrite Hd2; [done|].
  by rewrite bool_decide_true by auto.
Qed.

Lemma wrapped_user_run (g : pyfunc) w r w' :
  user_function g → wrapped time g w = inr (r, w') →
  ∃ d r1 w2,
    debug_info w = Some d ∧
    code g (traced_entry g d w) = inr (r1, w2) ∧
    same_frame (traced_entry g d w) w2 ∧
    r = RNone ∧
    w' = traced_exit time (__name__ g, debug_counter d) (state w)
           (time (time_calls w)) r1 (entry_debug g d) w2.
Proof.
  intros Hg (d & r1 & w2 & d2 & Hd & Hc & Hd2 & _ & -> & ->)%wrapped_run.
  pose proof (user_function_frame g Hg _ _ _ Hc) as Hfr.
  destruct (same_frame_fields _ _ Hfr) as (_ & _ & _ & _ & _ & Hdi & _).
  rewrite Hd2 in Hdi. simpl in Hdi. injection Hdi as ->.
  by exists d, r1, w2.
Qed.

(** *** What the steps of a workflow leave alone *)

Lemma all_wf_methods_steps (cls : WorkflowClass) self :
  Forall user_function (methods cls) →
  Forall (workflow_step time) (_all_wf_methods time cls self).
Proof.
  intros Hcls. rewrite all_wf_methods_eq. apply Forall_app. split.
  - destruct (debug self); repeat constructor.
  - rewrite sorted_reverse_Permutation. apply Forall_forall.
    intros obj (_ & f & Hf & _ & Hor)%wf_methods_elem.
    rewrite Forall_forall in Hcls. specialize (Hcls f Hf).
    destruct Hor as [-> | ->]; by constructor.
Qed.

Lemma traced_exit_fields key pre start r d (w : Workflow) :
  let w' := traced_exit time key pre start r d w in
  state w' = state w ∧ failed w' = failed w ∧
  short_circuit w' = short_circuit w ∧ options w' = options w ∧
  debug w' = debug w ∧ traced w' = traced w.
Proof. by destruct r. Qed.

Lemma workflow_step_fields (f : pyfunc) w r w' :
  workflow_step time f → code f w = inr (r, w') →
  short_circuit w' = short_circuit w ∧ options w' = options w ∧
  debug w' = debug w ∧ traced w' = traced w.
Proof.
  destruct 1 as [|f Hf|g Hg]; simpl.
  - unfold bind, modify, ret. by intros [= <- <-].
  - intros Hc. pose proof (user_function_frame f Hf _ _ _ Hc) as Hfr.
    destruct (same_frame_fields _ _ Hfr) as (?&?&?&?&?&?&?). done.
  - intros (d & r1 & w2 & Hd & Hc & Hfr & -> & ->)%wrapped_user_run; [|done].
    destruct (same_frame_fields _ _ Hfr) as (?&?&?&?&?&?&?).
    destruct (traced_exit_fields (__name__ g, debug_counter d) (state w)
                (time (time_calls w)) r1 (entry_debug g d) w2)
      as (_ & _ & -> & -> & -> & ->).
    done.
Qed.

Lemma workflow_step_trace_size (f : pyfunc) w r w' :
  workflow_step time f → code f w = inr (r, w') →
  trace_size w' ≤ S (trace_size w) ∧
  (is_Some (debug_info w) → is_Some (debug_info w')).
Proof.
  destruct 1 as [|f Hf|g Hg]; simpl.
  - unfold bind, modify, ret. intros [= <- <-].
    split; [|by eexists]. unfold trace_size.
    cbn [debug_info set_debug_info debug_trace empty_debug].
    rewrite size_empty. lia.
  - intros Hc. pose proof (user_function_frame f Hf _ _ _ Hc) as Hfr.
    destruct (same_frame_fields _ _ Hfr) as (_&_&_&_&_&Hdi&_).
    unfold trace_size. rewrite Hdi. split; [lia|done].
  - intros (d & r1 & w2 & Hd & Hc & Hfr & -> & ->)%wrapped_user_run; [|done].
    split; [|by destruct r1; eexists].
    unfold trace_size. rewrite Hd.
    assert (Hsz : size ({[(__name__ g, debug_counter d)]} ∪ debug_trace d)
                  ≤ S (size (debug_trace d))).
    { rewrite size_union_alt, size_singleton.
      assert (size (debug_trace d ∖ {[(__name__ g, debug_counter d)]})
              ≤ size (debug_trace d)) as Hsub
        by (apply subseteq_size; set_solver).
      lia. }
    destruct r1; simpl; [done|].
    etrans; [|exact Hsz]. apply subseteq_size. set_solver.
Qed.

Lemma trace_size_setup (w : Workflow) :
  trace_size (set_debug_info (Some empty_debug) w) = 0.
Proof.
  unfold trace_size. cbn [debug_info set_debug_info debug_trace empty_debug].
  apply size_empty.
Qed.

Lemma run_workflow_fields (l : list pyfunc) w w' :
  Forall (workflow_step time) l → run_workflow l w = inr (tt, w') →
  short_circuit w' = short_circuit w ∧
  trace_size w' ≤ trace_size w + length l ∧
  (is_Some (debug_info w) → is_Some (debug_info w')).
Proof.
  intros Hl. revert w. induction Hl as [|f l Hf Hl IH]; intros w.
  - intros [= <-]. split; [done|]. split; [lia|done].
  - destruct (short_circuit w && failed w) eqn:Hstop.
    { rewrite run_workflow_stop by done. intros [= <-].
      split; [done|]. split; [lia|done]. }
    rewrite run_workflow_cons by done.
    destruct (code f w) as [e|[r w1]] eqn:Hc; [done|].
    intros Hrun. destruct (IH _ Hrun) as (Hsc & Hsz & Hsome).
    destruct (workflow_step_fields _ _ _ _ Hf Hc) as (Hsc1 & _).
    destruct (workflow_step_trace_size _ _ _ _ Hf Hc) as (Hsz1 & Hsome1).
    split; [congruence|]. split; [simpl; lia|auto].
Qed.

(** ** Requirement gating *)

(** What the branches of [requires.__init__] other than the one for [str]
    give.  For a requirement on an option with an explicit set, list or
    tuple of values or a single literal that is not a string, when the
    option is present and the state predicate, if any, holds: the wrapped
    function is called if and only if the value of the option is a member
    (under [==]); otherwise nothing changes and [_not_executed] is
    returned. *)
Lemma explicit_values_gate (opt : string) (vals : pyobj)
    (st : option (St → bool)) (func : pyfunc) (w : Workflow)
    (val : pyval) (l : list pyval) :
  explicit_values vals = Some l →
  options w !! opt = Some val →
  (∀ p, st = Some p → p (state w) = true) →
  decorated (requires_init (Some opt) vals st) func w =
    if existsb (py_eq val) l then (code func ;;; ret RNone) w
    else inr (_not_executed, w).
Proof.
  intros Hvals Hopt Hst. rewrite decorated_requirement_met.
  unfold requirement_met. simpl. rewrite Hopt.
  assert (Hp : match st with
               | Some p => negb (p (state w)) | None => false end = false).
  { destruct st as [p|]; [|done]. by rewrite (Hst p eq_refl). }
  rewrite Hp.
  assert (Hv : ∃ l', match vals with
                     | OAnything => anything
                     | ONotNone => not_none
                     | OSet l => SetValues l
                     | OAtom (PStr s) => StrValues s
                     | OList l => SetValues l
                     | OTuple l => SetValues l
                     | OAtom v => SetValues [v]
                     end = SetValues l' ∧ l' = l).
  { destruct vals as [| |[|b|z|s]|l0|l0|l0]; simplify_eq/=; by eexists. }
  destruct Hv as (l' & -> & ->). simpl.
  by destruct (existsb (py_eq val) l).
Qed.

(** ** The tracer *)

(** C9.  A call through the debug trace wrapper leaves [failed] as the
    wrapped function left it: the wrapper calls the function on an instance
    with the same [failed], and returns an instance with the [failed] the
    function produced; when the function is gated by a requirement that is
    not met, [failed] is what it was before the call. *)
Theorem C9_tracer_keeps_failed (func : pyfunc) (w w' : Workflow) (r : retval) :
  wrapped time func w = inr (r, w') →
  ∃ d r1 w2,
    debug_info w = Some d ∧
    failed (traced_entry func d w) = failed w ∧
    code func (traced_entry func d w) = inr (r1, w2) ∧
    failed w' = failed w2 ∧
    (∀ req g, func = requires_call req g →
              requirement_met req w = inr false →
              r1 = _not_executed ∧ failed w' = failed w).
Proof.
  intros (d & r1 & w2 & d2 & Hd & Hc & Hd2 & _ & -> & ->)%wrapped_run.
  exists d, r1, w2. split; [done|]. split; [done|]. split; [done|].
  destruct (traced_exit_fields (__name__ func, debug_counter d) (state w)
              (time (time_calls w)) r1 d2 w2) as (_ & Hf & _).
  split; [done|]. intros req g -> Hreq. rewrite Hf.
  simpl in Hc. rewrite decorated_requirement_met in Hc.
  rewrite (requirement_met_frame req w (traced_entry _ d w)) in Hc by done.
  rewrite Hreq in Hc. by injection Hc as <- <-.
Qed.


(** *** Steps that call other methods *)

Lemma user_function_method_function (f : pyfunc) :
  user_function f → method_function Item time f.
Proof. induction 1; by constructor. Qed.

Lemma same_settings_refl (w : Workflow) : same_settings w w.
Proof. by repeat split. Qed.

Lemma same_settings_trans (w1 w2 w3 : Workflow) :
  same_settings w1 w2 → same_settings w2 w3 → same_settings w1 w3.
Proof.
  intros (?&?&?&?&?) (?&?&?&?&?). repeat split; congruence.
Qed.

Lemma same_frame_settings (w w' : Workflow) :
  same_frame w w' → same_settings w w'.
Proof.
  intros Hfr. destruct (same_frame_fields _ _ Hfr) as (?&?&?&?&?&?&?).
  by repeat split.
Qed.

Lemma trace_extends_refl (d : DebugInfo St) : trace_extends d d.
Proof. split; [done|]. split; [done|]. intros key Hin Hnin. done. Qed.

Lemma trace_extends_trans (d1 d2 d3 : DebugInfo St) :
  trace_extends d1 d2 → trace_extends d2 d3 → trace_extends d1 d3.
Proof.
  intros (Hc1 & Hs1 & Hn1) (Hc2 & Hs2 & Hn2).
  split; [lia|]. split; [set_solver|].
  intros key Hin Hnin.
  destruct (decide (key ∈ debug_trace d2)) as [Hin2|Hnin2].
  - by apply Hn1.
  - specialize (Hn2 key Hin Hnin2). lia.
Qed.

Lemma well_behaved_frame {A} (c : M St A) :
  (∀ w a w', c w = inr (a, w') → same_frame w w') → well_behaved c.
Proof.
  intros Hc w a w' Hrun. specialize (Hc _ _ _ Hrun).
  split; [by apply same_frame_settings|].
  intros P d Hd Hinv. exists d.
  destruct (same_frame_fields _ _ Hc) as (_&_&_&_&_&->&_).
  split; [done|]. split; [done|]. apply trace_extends_refl.
Qed.

Lemma well_behaved_ret {A} (a : A) : well_behaved (St := St) (ret a).
Proof.
  apply well_behaved_frame. intros w a' w' [= <- <-]. apply same_frame_refl.
Qed.

Lemma well_behaved_bind {A B} (c : M St A) (k : A → M St B) :
  well_behaved c → (∀ a, well_behaved (k a)) → well_behaved (bind c k).
Proof.
  intros Hc Hk w b w'. unfold bind.
  destruct (c w) as [e|[a w1]] eqn:Hrun; [done|]. intros Hrun'.
  destruct (Hc _ _ _ Hrun) as (Hs1 & Ht1).
  destruct (Hk a _ _ _ Hrun') as (Hs2 & Ht2).
  split; [by eapply same_settings_trans|].
  intros P d Hd Hinv.
  destruct (Ht1 P d Hd Hinv) as (d1 & Hd1 & Hinv1 & Hext1).
  destruct (Ht2 P d1 Hd1 Hinv1) as (d2 & Hd2 & Hinv2 & Hext2).
  exists d2. split; [done|]. split; [done|]. by eapply trace_extends_trans.
Qed.

Lemma well_behaved_run_body (b : body St) : well_behaved (run_body b).
Proof. apply well_behaved_frame. intros w a w'. apply run_body_frame. Qed.

Lemma well_behaved_decorated (r : requires St) (f : pyfunc) :
  well_behaved (code f) → well_behaved (decorated r f).
Proof.
  intros Hf w a w'. rewrite decorated_requirement_met.
  destruct (requirement_met r w) as [e|[|]]; [done| |].
  - apply (well_behaved_bind (code f) (λ _, ret RNone)); [done|].
    intros _. apply well_behaved_ret.
  - apply (well_behaved_ret _not_executed).
Qed.

(** One traced call of a well-behaved function: beside what it records, the
    counter has advanced by one at least. *)
Lemma wrapped_trace (f : pyfunc) w r w' :
  well_behaved (code f) → wrapped time f w = inr (r, w') →
  same_settings w w' ∧
  ∀ P d, debug_info w = Some d → trace_inv_during P d →
    ∃ d', debug_info w' = Some d' ∧ trace_inv_during P d' ∧
          trace_extends d d' ∧ S (debug_counter d) ≤ debug_counter d'.
Proof.
  intros Hf (d0 & r1 & w2 & d2 & Hd0 & Hc & Hd2 & Hin & -> & ->)%wrapped_run.
  destruct (Hf _ _ _ Hc) as (Hset & Htr).
  split.
  { destruct Hset as (H1 & H2 & H3 & H4 & H5).
    destruct r1; by repeat split. }
  intros P d Hd (Hlt & Hinj & HP & Hrt & Hpre & Hpost).
  rewrite Hd in Hd0. injection Hd0 as <-.
  set (key := (__name__ f, debug_counter d)) in *.
  assert (Hfresh : ∀ k, k ∈ debug_trace d → k.2 ≠ debug_counter d).
  { intros k Hk%Hlt. lia. }
  assert (Hkey : key ∉ debug_trace d).
  { intros Hk. by apply (Hfresh key Hk). }
  assert (HkeyP : key ∉ P) by set_solver.
  destruct (Htr ({[key]} ∪ P) (entry_debug f d)) as (d2' & Hd2' & Hinv2 & Hext2).
  { done. }
  { unfold trace_inv_during, entry_debug.
    cbn [debug_counter debug_trace debug_runtime debug_pre_state
         debug_post_state]. fold key.
    split; [|split; [|split; [set_solver|]]].
    - intros k [->%elem_of_singleton|Hk%Hlt]%elem_of_union; simpl; lia.
    - intros k1 k2 [->%elem_of_singleton|Hk1]%elem_of_union
        [->%elem_of_singleton|Hk2]%elem_of_union Heq; simpl in Heq.
      + done.
      + by destruct (Hfresh k2 Hk2).
      + by destruct (Hfresh k1 Hk1).
      + by apply Hinj.
    - rewrite Hrt, Hpre, Hpost. set_solver. }
  rewrite Hd2 in Hd2'. injection Hd2' as <-.
  destruct Hinv2 as (Hlt2 & Hinj2 & HP2 & Hrt2 & Hpre2 & Hpost2).
  destruct Hext2 as (Hc2 & Hs2 & Hn2).
  cbn [entry_debug debug_counter debug_trace] in Hc2, Hs2, Hn2. fold key in Hs2, Hn2.
  assert (Hkey2 : key ∈ debug_trace d2) by set_solver.
  assert (Hnew : ∀ k, k ∈ debug_trace d2 → k ∉ debug_trace d →
                      debug_counter d ≤ k.2).
  { intros k Hk Hnk. destruct (decide (k = key)) as [->|Hne]; [done|].
    assert (debug_counter (entry_debug f d) ≤ k.2) as Hle
      by (apply Hn2; [done|]; cbn; fold key; set_solver).
    simpl in Hle. lia. }
  destruct r1; unfold traced_exit; eexists; (split; [reflexivity|]);
    unfold trace_inv_during, trace_extends;
    cbn [debug_counter debug_trace debug_runtime debug_pre_state
         debug_post_state].
  - split; [|split; [|lia]].
    + split; [done|]. split; [done|]. split; [set_solver|].
      rewrite !dom_insert_L, Hrt2, Hpre2, Hpost2.
      assert (Heq : {[key]} ∪ debug_trace d2 ∖ ({[key]} ∪ P)
                    = debug_trace d2 ∖ P).
      { apply set_eq. intros k.
        destruct (decide (k = key)) as [->|Hne]; set_solver. }
      by rewrite Heq.
    + split; [lia|]. split; [set_solver|]. done.
  - split; [|split; [|lia]].
    + split; [intros k Hk; apply Hlt2; set_solver|].
      split; [intros k1 k2 Hk1 Hk2; apply Hinj2; set_solver|].
      split; [set_solver|].
      rewrite Hrt2, Hpre2, Hpost2. set_solver.
    + split; [lia|]. split; [set_solver|].
      intros k Hk Hnk. apply Hnew; [set_solver|done].
Qed.

Lemma well_behaved_wrapped (f : pyfunc) :
  well_behaved (code f) → well_behaved (wrapped time f).
Proof.
  intros Hf w r w' Hrun.
  destruct (wrapped_trace f w r w' Hf Hrun) as (Hset & Htr).
  split; [done|]. intros P d Hd Hinv.
  destruct (Htr P d Hd Hinv) as (d' & ? & ? & ? & _). by exists d'.
Qed.

Lemma well_behaved_call_method (cls : WorkflowClass) (name : string) :
  (∀ f, f ∈ methods cls → well_behaved (code f)) →
  well_behaved (call_method time cls name).
Proof.
  intros Hcls w r w'. unfold call_method, bind, get, getattr.
  destruct (class_dict cls !! name) as [f|] eqn:Hf; [|done]. simpl.
  apply class_dict_lookup in Hf as [Hin _].
  case_bool_decide.
  - apply well_behaved_wrapped; auto.
  - apply Hcls; auto.
Qed.

Lemma well_behaved_exec (cls : WorkflowClass) (s : stmt) :
  (∀ f, f ∈ methods cls → well_behaved (code f)) →
  well_behaved (exec time cls s).
Proof.
  intros Hcls. induction s as [b|name|s1 IH1 s2 IH2|c s1 IH1 s2 IH2]; simpl.
  - apply well_behaved_run_body.
  - apply well_behaved_bind; [by apply well_behaved_call_method|].
    intros _. apply well_behaved_ret.
  - by apply well_behaved_bind.
  - intros w a w'. unfold bind, get. destruct (c w); [apply IH1|apply IH2].
Qed.

Lemma method_function_well_behaved (f : pyfunc) :
  method_function Item time f → well_behaved (code f).
Proof.
  induction 1 as [name b|cls name s Hcls IH|p f Hf IH|r f Hf IH]; simpl.
  - apply well_behaved_bind; [apply well_behaved_run_body|].
    intros _. apply well_behaved_ret.
  - apply well_behaved_bind; [by apply well_behaved_exec|].
    intros _. apply well_behaved_ret.
  - done.
  - by apply well_behaved_decorated.
Qed.

Lemma wf_methods_well_behaved (cls : WorkflowClass) self :
  Forall (method_function Item time) (methods cls) →
  Forall (λ f, well_behaved (code f)) (wf_methods time cls self).
Proof.
  intros Hcls. apply Forall_forall.
  intros obj (_ & f & Hf & _ & Hor)%wf_methods_elem.
  rewrite Forall_forall in Hcls. specialize (Hcls f Hf).
  apply method_function_well_behaved in Hcls.
  destruct Hor as [-> | ->]; [done|]. by apply well_behaved_wrapped.
Qed.

Lemma setup_debug_trace_settings (w : Workflow) r w' :
  code (_setup_debug_trace (St := St)) w = inr (r, w') → same_settings w w'.
Proof. simpl. unfold bind, modify, ret. by intros [= <- <-]. Qed.

Lemma all_wf_methods_settings (cls : WorkflowClass) self :
  Forall (method_function Item time) (methods cls) →
  Forall (λ f, ∀ w r w', code f w = inr (r, w') → same_settings w w')
         (_all_wf_methods time cls self).
Proof.
  intros Hcls. rewrite all_wf_methods_eq. apply Forall_app. split.
  - destruct (debug self); [|constructor].
    constructor; [apply setup_debug_trace_settings|constructor].
  - rewrite sorted_reverse_Permutation.
    eapply Forall_impl; [by apply wf_methods_well_behaved|].
    intros f Hf w r w' Hrun. by destruct (Hf _ _ _ Hrun).
Qed.

Lemma run_workflow_settings (l : list pyfunc) w w' :
  Forall (λ f, ∀ w r w', code f w = inr (r, w') → same_settings w w') l →
  run_workflow l w = inr (tt, w') → same_settings w w'.
Proof.
  intros Hl. revert w. induction Hl as [|f l Hf Hl IH]; intros w.
  - intros [= <-]. apply same_settings_refl.
  - destruct (short_circuit w && failed w) eqn:Hstop.
    { rewrite run_workflow_stop by done. intros [= <-].
      apply same_settings_refl. }
    rewrite run_workflow_cons by done.
    destruct (code f w) as [e|[r w1]] eqn:Hc; [done|].
    intros Hrun. eapply same_settings_trans; eauto.
Qed.


Lemma trace_inv_during_empty : trace_inv_during ∅ (@empty_debug St).
Proof.
  unfold trace_inv_during, empty_debug. simpl.
  split; [set_solver|]. split; [set_solver|]. split; [done|].
  rewrite !dom_empty_L. set_solver.
Qed.

Lemma trace_inv_during_inv (d : DebugInfo St) :
  trace_inv_during ∅ d → trace_inv d.
Proof.
  intros (Hlt & _ & _ & Hrt & Hpre & Hpost).
  rewrite difference_empty_L in Hrt, Hpre, Hpost. done.
Qed.

(** ** Short circuiting *)

Lemma process_item_app (cls : WorkflowClass) (pre l : list pyfunc) item w :
  process_item cls (pre ++ l) item w =
    match process_item cls pre item w with
    | inl e => inl e
    | inr (_, w1) => run_workflow l w1
    end.
Proof.
  unfold process_item, bind, modify.
  destruct (call_initialize_state cls item (set_failed false w))
    as [e|[u wi]]; [done|].
  apply run_workflow_app.
Qed.

Lemma call_initialize_state_frame (cls : WorkflowClass) item w u w' :
  call_initialize_state cls item w = inr (u, w') → same_frame w w'.
Proof.
  unfold call_initialize_state. destruct (initialize_state cls); [|done].
  apply run_body_frame.
Qed.

Lemma process_item_inv (cls : WorkflowClass) (l : list pyfunc) item w w' :
  process_item cls l item w = inr (tt, w') →
  ∃ wi, call_initialize_state cls item (set_failed false w) = inr (tt, wi) ∧
        short_circuit wi = short_circuit w ∧
        debug_info wi = debug_info w ∧
        run_workflow l wi = inr (tt, w').
Proof.
  unfold process_item, bind, modify.
  destruct (call_initialize_state cls item (set_failed false w))
    as [e|[[] wi]] eqn:Hi; [done|].
  intros Hrun. exists wi. split; [done|].
  apply call_initialize_state_frame in Hi.
  destruct (same_frame_fields _ _ Hi) as (_ & Hsc & _ & _ & _ & Hdi & _).
  done.
Qed.

(** C2, as amended.  With [short_circuit] set, once a step has set
    [failed], the loop ends: whatever steps are ordered after it, none of
    them is called (so no requirement of theirs is looked at) and the item
    ends in the state the failing step left; this holds whatever the steps
    do, calls of other methods of the instance included.  With debug
    enabled, when no method of the class calls another method and the
    failing step is not the last one, the trace has fewer keys than the
    class has workflow methods. *)
Theorem C2_short_circuit (cls : WorkflowClass) (self w w1 w2 : Workflow)
    (item : Item) (pre post : list pyfunc) (func : pyfunc) (r : retval) :
  Forall (method_function Item time) (methods cls) →
  _all_wf_methods time cls self = (pre ++ func :: post)%list →
  short_circuit w = true →
  process_item cls pre item w = inr (tt, w1) →
  failed w1 = false →
  code func w1 = inr (r, w2) →
  failed w2 = true →
  (∀ post', process_item cls (pre ++ func :: post') item w = inr (tt, w2)) ∧
  (Forall user_function (methods cls) → debug self = true → post ≠ [] →
   is_Some (debug_info w2) ∧
   trace_size w2 < length (wf_methods time cls self)).
Proof.
  intros Hcls Hwf Hsc Hpre Hf1 Hc Hf2.
  pose proof (all_wf_methods_settings cls self Hcls) as Hsets.
  rewrite Hwf in Hsets. apply Forall_app in Hsets as [Hspre Hsrest].
  apply Forall_cons in Hsrest as [Hsfunc _].
  destruct (process_item_inv _ _ _ _ _ Hpre) as (wi & Hi & Hsci & Hdi & Hrun).
  destruct (run_workflow_settings _ _ _ Hspre Hrun) as (_ & Hsc1 & _).
  destruct (Hsfunc _ _ _ Hc) as (_ & Hsc2 & _).
  assert (Hsc1' : short_circuit w1 = true) by congruence.
  assert (Hsc2' : short_circuit w2 = true) by congruence.
  split.
  - intros post'. rewrite process_item_app, Hpre.
    rewrite run_workflow_cons by (by rewrite Hsc1', Hf1).
    rewrite Hc. apply run_workflow_stop. by rewrite Hsc2', Hf2.
  - intros Huser Hdebug Hpost.
    pose proof (all_wf_methods_steps cls self Huser) as Hsteps.
    rewrite Hwf in Hsteps. apply Forall_app in Hsteps as [Hwpre Hwrest].
    apply Forall_cons in Hwrest as [Hwfunc _].
    rewrite all_wf_methods_eq, Hdebug in Hwf.
    assert (Hlen : length (wf_methods time cls self)
                   = length pre + length post).
    { apply (f_equal length) in Hwf. rewrite !length_app in Hwf.
      rewrite (Permutation_length (sorted_reverse_Permutation _ _)) in Hwf.
      simpl in Hwf. lia. }
    destruct pre as [|s pre'].
    { simpl in Hwf. injection Hwf as <- _. simpl in Hc.
      unfold bind, modify, ret in Hc. injection Hc as _ <-.
      simpl in Hf2. congruence. }
    simpl in Hwf. injection Hwf as <- Hwf.
    destruct (short_circuit wi && failed wi) eqn:Hstop.
    { rewrite run_workflow_stop in Hrun by done. injection Hrun as <-.
      rewrite Hsc1', Hf1 in Hstop. done. }
    rewrite run_workflow_cons in Hrun by done.
    change (run_workflow pre' (set_debug_info (Some empty_debug) wi)
            = inr (tt, w1)) in Hrun.
    apply Forall_cons in Hwpre as [_ Hwpre'].
    destruct (run_workflow_fields _ _ _ Hwpre' Hrun) as (_ & Hsz & Hsome).
    destruct (workflow_step_trace_size _ _ _ _ Hwfunc Hc) as (Hszf & Hsomef).
    split; [apply Hsomef, Hsome; by eexists|].
    rewrite trace_size_setup in Hsz.
    rewrite Hlen. simpl. destruct post; [done|]. simpl. lia.
Qed.

(** ** The debug trace of an item *)


Lemma traced_step_inv (g : pyfunc) w r w' d :
  user_function g → wrapped time g w = inr (r, w') →
  debug_info w = Some d → trace_inv d →
  ∃ d', debug_info w' = Some d' ∧
        debug_counter d' = S (debug_counter d) ∧
        trace_inv d' ∧
        debug_trace d ⊆ debug_trace d' ∧
        debug_trace d' ⊆ debug_trace d ∪ {[(__name__ g, debug_counter d)]}.
Proof.
  intros Hg Hw Hd (Hlt & Hrt & Hpre & Hpost).
  apply wrapped_user_run in Hw as (d0 & r1 & w2 & Hd0 & Hc & Hfr & -> & ->);
    [|done].
  rewrite Hd in Hd0. injection Hd0 as <-.
  assert (Hfresh : (__name__ g, debug_counter d) ∉ debug_trace d).
  { intros Hin. apply Hlt in Hin. simpl in Hin. lia. }
  destruct r1; unfold traced_exit; eexists; (split; [reflexivity|]);
    unfold trace_inv;
    cbn [debug_counter debug_trace debug_runtime debug_pre_state
         debug_post_state entry_debug].
  - split; [done|]. split; [|set_solver].
    split; [|by rewrite !dom_insert_L, Hrt, Hpre, Hpost].
    intros key [->%elem_of_singleton|Hin%Hlt]%elem_of_union; simpl; lia.
  - split; [done|]. split; [|set_solver].
    split; [|split; [|split]]; [|set_solver..].
    intros key [[->%elem_of_singleton|Hin%Hlt]%elem_of_union _]%elem_of_difference;
      simpl; lia.
Qed.


Lemma wf_methods_traced (cls : WorkflowClass) self :
  Forall user_function (methods cls) →
  (∀ n, n ∈ dir_methods cls → n ∈ traced self) →
  Forall (λ f, ∃ g, user_function g ∧ f = _debug_trace_wrapper time g)
         (wf_methods time cls self).
Proof.
  intros Hcls Htr. apply Forall_forall. intros obj Hobj.
  unfold wf_methods in Hobj.
  apply list_elem_of_omap in Hobj as (n & Hn & Hobj).
  unfold getattr in Hobj.
  destruct (class_dict cls !! n) as [f|] eqn:Hf; [|done]. simpl in Hobj.
  rewrite bool_decide_true in Hobj by auto.
  destruct (priority (_debug_trace_wrapper time f)); [|done].
  injection Hobj as <-. exists f. split; [|done].
  apply class_dict_lookup in Hf as [Hin _].
  rewrite Forall_forall in Hcls. auto.
Qed.


(** ** The order of execution *)

(** C3, as amended.  The workflow methods are run in order of descending
    priority (strictly descending where the priorities differ); methods of
    equal priority are run in ascending order of their names, the order in
    which [dir] lists them, whatever the order of their definitions in the
    class.  The sequence of names and priorities is a function of the class
    alone, so it is the same in every run. *)
Theorem C3_execution_order (cls : WorkflowClass) (self : Workflow) :
  ∃ steps,
    _all_wf_methods time cls self =
      ((if debug self then [_setup_debug_trace] else []) ++ steps)%list ∧
    StronglySorted precedes steps ∧
    steps ≡ₚ wf_methods time cls self ∧
    (λ f, (__name__ f, priority f)) <$> steps =
      sorted_reverse (λ p, default 0%Z p.2) (wf_signature cls).
Proof.
  exists (sorted_reverse priority_key (wf_methods time cls self)).
  split; [apply all_wf_methods_eq|]. split.
  { apply sorted_reverse_sorted, wf_methods_sorted. }
  split; [apply sorted_reverse_Permutation|].
  rewrite <- (wf_methods_signature cls self).
  apply (sorted_reverse_fmap (λ f : pyfunc, (__name__ f, priority f))
           (λ p, default 0%Z p.2)).
Qed.

(** ** Results of a run *)

Lemma iterate_snapshots {R} (cls : WorkflowClass) workflow
    (sc fc : option (Workflow → R)) items self :
  (iterate cls workflow sc fc items self).1 =
  concat (yielded sc fc <$> snapshots cls workflow items self).
Proof.
  revert self. induction items as [|item rest IH]; intros self; [done|].
  simpl. destruct (process_item cls workflow item self) as [e|[u w1]]; [done|].
  specialize (IH w1).
  destruct (iterate cls workflow sc fc rest w1) as [out fin].
  simpl in *. by rewrite IH.
Qed.

Lemma snapshots_length (cls : WorkflowClass) workflow items self :
  length (snapshots cls workflow items self) ≤ length items.
Proof.
  revert self. induction items as [|item rest IH]; intros self; [done|].
  simpl. destruct (process_item cls workflow item self) as [e|[u w1]];
    simpl; [lia|]. specialize (IH w1). lia.
Qed.

Lemma iterate_exhausted {R} (cls : WorkflowClass) workflow
    (sc fc : option (Workflow → R)) items self fin :
  (iterate cls workflow sc fc items self).2 = inr fin →
  length (snapshots cls workflow items self) = length items.
Proof.
  revert self. induction items as [|item rest IH]; intros self; [done|].
  simpl. destruct (process_item cls workflow item self) as [e|[u w1]]; [done|].
  specialize (IH w1).
  destruct (iterate cls workflow sc fc rest w1) as [out fin'].
  simpl in *. intros Hfin. by rewrite IH.
Qed.

Lemma iterate_complete {R} (cls : WorkflowClass) workflow
    (sc fc : option (Workflow → R)) items self :
  length (snapshots cls workflow items self) = length items →
  ∃ fin, (iterate cls workflow sc fc items self).2 = inr fin.
Proof.
  revert self. induction items as [|item rest IH]; intros self; [by eexists|].
  simpl. destruct (process_item cls workflow item self) as [e|[u w1]]; [done|].
  simpl. intros [= Hlen]. destruct (IH w1 Hlen) as [fin Hfin].
  destruct (iterate cls workflow sc fc rest w1) as [out r]. by exists fin.
Qed.

Lemma yielded_length {R} (sc fc : option (Workflow → R)) (l : list Workflow) :
  length (concat (yielded sc fc <$> l)) =
    match fc with
    | Some _ => length l
    | None => length (filter (λ w, failed w = false) l)
    end.
Proof.
  induction l as [|w l IH]; [by destruct fc|].
  rewrite fmap_cons. cbn [concat]. rewrite length_app, IH. unfold yielded.
  rewrite filter_cons. destruct (failed w), fc, sc; simpl; try done;
    by case_decide.
Qed.

Lemma filter_failed_length (l : list Workflow) :
  length (filter (λ w, failed w = false) l)
  + length (filter (λ w, failed w = true) l) = length l.
Proof.
  induction l as [|w l IH]; [done|].
  rewrite !filter_cons. destruct (failed w); repeat case_decide; simpl;
    try done; lia.
Qed.

(** C5.  Without callbacks, the generator yields the state of the instance
    at every item that ends with [failed] unset, and nothing at an item
    that ends with [failed] set: the outputs are the states at the yield
    points that are not failed, in order, and whenever an item failed there
    are fewer outputs than inputs. *)
Theorem C5_default_callbacks {R} (cls : WorkflowClass) (self : Workflow)
    (items : list Item) :
  let snaps := snapshots cls (_all_wf_methods time cls self) items self in
  let outs := (Workflow_call (R:=R) time cls self items None None).1 in
  (∀ w : Workflow,
     yielded (R:=R) None None w = if failed w then [] else [inl (state w)]) ∧
  outs = (λ w, inl (state w)) <$> filter (λ w, failed w = false) snaps ∧
  length outs + length (filter (λ w, failed w = true) snaps) = length snaps ∧
  length snaps ≤ length items ∧
  (∀ w, w ∈ snaps → failed w = true → length outs < length items).
Proof.
  intros snaps outs.
  assert (Houts : outs = (λ w, inl (state w))
                         <$> filter (λ w, failed w = false) snaps).
  { unfold outs, Workflow_call. rewrite iterate_snapshots. fold snaps.
    induction snaps as [|w l IH]; [done|].
    rewrite fmap_cons. cbn [concat]. rewrite IH, filter_cons. unfold yielded.
    destruct (failed w); by case_decide. }
  assert (Hlen : length outs + length (filter (λ w, failed w = true) snaps)
                 = length snaps).
  { rewrite Houts, length_fmap. apply filter_failed_length. }
  pose proof (snapshots_length cls (_all_wf_methods time cls self) items self)
    as Hle. fold snaps in Hle.
  split; [done|]. split; [done|]. split; [done|]. split; [done|].
  intros w Hw Hf.
  assert (0 < length (filter (λ w, failed w = true) snaps)).
  { assert (Hin : w ∈ filter (λ w, failed w = true) snaps)
      by (by apply list_elem_of_filter).
    destruct (filter (λ w, failed w = true) snaps);
      [by apply elem_of_nil in Hin|simpl; lia]. }
  lia.
Qed.

(** C6, as amended.  When the generator is exhausted without an exception,
    it has yielded at most one result per input item: exactly one per item
    when a fail callback is given, and one per item that did not fail when
    none is given. *)
Theorem C6_output_cardinality {R} (cls : WorkflowClass) (self fin : Workflow)
    (items : list Item) (success_callback fail_callback : option (Workflow → R))
    (outs : list (St + R)) :
  Workflow_call time cls self items success_callback fail_callback
    = (outs, inr fin) →
  length outs ≤ length items ∧
  (is_Some fail_callback → length outs = length items) ∧
  (fail_callback = None →
   length outs =
     length (filter (λ w, failed w = false)
               (snapshots cls (_all_wf_methods time cls self) items self))).
Proof.
  unfold Workflow_call. intros Hcall.
  pose proof (iterate_snapshots cls (_all_wf_methods time cls self)
                success_callback fail_callback items self) as Houts.
  pose proof (iterate_exhausted cls (_all_wf_methods time cls self)
                success_callback fail_callback items self fin) as Hlen.
  rewrite Hcall in Houts, Hlen. simpl in Houts, Hlen.
  specialize (Hlen eq_refl). subst outs. rewrite yielded_length.
  pose proof (filter_failed_length
                (snapshots cls (_all_wf_methods time cls self) items self)).
  destruct fail_callback as [f|].
  - split; [lia|]. split; [done|]. done.
  - split; [lia|]. split; [by intros [? ?]|done].
Qed.

(** ** Construction *)

Lemma hasattr_set_extra_attrs (cls : WorkflowClass) (w : Workflow) k v k' :
  k' ≠ k →
  hasattr cls (set_extra_attrs (<[k := v]> (extra_attrs w)) w) k'
  = hasattr cls w k'.
Proof.
  intros Hne. unfold hasattr. simpl. rewrite lookup_insert_ne by done. done.
Qed.

Lemma set_kwargs_spec (cls : WorkflowClass) (l : list (string * pyval)) w :
  NoDup l.*1 →
  match set_kwargs cls l w with
  | inl e =>
      ∃ k, k ∈ l.*1 ∧ hasattr cls w k = true
           ∧ e = AttributeError (k ++ " exists in self!")
  | inr (_, w') =>
      (∀ k, k ∈ l.*1 → hasattr cls w k = false) ∧
      w' = set_extra_attrs (list_to_map l ∪ extra_attrs w) w
  end.
Proof.
  revert w. induction l as [|[k v] l IH]; intros w Hnd.
  - simpl. split; [by intros k ?%elem_of_nil|].
    rewrite (left_id_L ∅ (∪)). by destruct w.
  - rewrite fmap_cons in Hnd. apply NoDup_cons in Hnd as [Hk Hnd].
    cbn [set_kwargs]. unfold bind at 1, get.
    destruct (hasattr cls w k) eqn:Hhas.
    { exists k. split; [by left|done]. }
    unfold bind, modify.
    specialize (IH (set_extra_attrs (<[k:=v]> (extra_attrs w)) w) Hnd).
    destruct (set_kwargs cls l _) as [e|[u w']].
    + destruct IH as (k' & Hk' & Hhas' & ->).
      exists k'. split; [by right|]. split; [|done].
      rewrite hasattr_set_extra_attrs in Hhas' by (by intros ->). done.
    + destruct IH as [Hall ->]. split.
      * intros k' [->|Hk']%elem_of_cons; [done|].
        rewrite <- (hasattr_set_extra_attrs cls w k v) by (by intros ->).
        by apply Hall.
      * simpl. unfold set_extra_attrs. simpl. f_equal.
        rewrite <- insert_union_l. symmetry. apply insert_union_r.
        by apply not_elem_of_list_to_map_1.
Qed.

(** C10.  Construction either raises [AttributeError], and then some
    keyword given in [**kwargs] names an attribute the instance already
    has; or it returns an instance, and then no keyword names an existing
    attribute and every keyword is attached with its value, the other
    attributes being those that [__init__] sets.  The error arises in
    [__init__], before any item is processed. *)
Theorem C10_kwargs_collision (cls : WorkflowClass) (state0 : St)
    (short_circuit0 debug0 : bool) (options0 : option (gmap string pyval))
    (kwargs : gmap string pyval) :
  let self0 := mkWorkflow state0 (default ∅ options0) short_circuit0 false
                 debug0 ∅ ∅ None 0 in
  match Workflow_init cls state0 short_circuit0 debug0 options0 kwargs with
  | inl e =>
      ∃ k, is_Some (kwargs !! k) ∧ hasattr cls self0 k = true ∧
           e = AttributeError (k ++ " exists in self!")
  | inr self =>
      (∀ k, is_Some (kwargs !! k) → hasattr cls self0 k = false) ∧
      extra_attrs self = kwargs ∧
      state self = state0 ∧ options self = default ∅ options0 ∧
      short_circuit self = short_circuit0 ∧ failed self = false ∧
      debug self = debug0 ∧ debug_info self = None
  end.
Proof.
  intros self0. unfold Workflow_init. fold self0. unfold bind.
  pose proof (set_kwargs_spec cls (map_to_list kwargs) self0
                (NoDup_fst_map_to_list kwargs)) as Hspec.
  assert (Hkeys : ∀ k, k ∈ (map_to_list kwargs).*1 ↔ is_Some (kwargs !! k)).
  { intros k. rewrite list_elem_of_fmap. split.
    - intros [[k' v] [-> Hin%elem_of_map_to_list]]. by exists v.
    - intros [v Hv]. exists (k, v). split; [done|].
      by apply elem_of_map_to_list. }
  destruct (set_kwargs cls (map_to_list kwargs) self0) as [e|[u w']].
  - destruct Hspec as (k & Hk & Hhas & ->). exists k.
    split; [by apply Hkeys|done].
  - destruct Hspec as [Hall ->].
    assert (Hattrs : list_to_map (map_to_list kwargs) ∪ extra_attrs self0
                     = kwargs).
    { simpl. rewrite (right_id_L ∅ (∪)). apply list_to_map_to_list. }
    destruct debug0; simpl; (split; [intros k Hk; by apply Hall, Hkeys|]);
      by rewrite (right_id_L ∅ (∪)), list_to_map_to_list.
Qed.

(** The instance [__init__] returns with debug enabled has a wrapper for
    every method whose name is not a member of the base class. *)
Lemma Workflow_init_traced (cls : WorkflowClass) state0 short_circuit0
    options0 kwargs self :
  Workflow_init cls state0 short_circuit0 true options0 kwargs = inr self →
  traced self
  = list_to_set (filter (λ n, n ∉ dir_Workflow) (dir_methods cls)).
Proof.
  unfold Workflow_init, bind.
  destruct (set_kwargs cls (map_to_list kwargs) _) as [e|[u w']]; [done|].
  simpl. by intros [= <-].
Qed.

End Properties.

(** ** The documented example and concrete runs *)

Import SequenceProcessor.

Lemma new_instance debug reverse : new debug reverse = inr (instance debug reverse).
Proof. destruct debug, reverse; vm_compute; reflexivity. Qed.

Lemma cls_user_functions : Forall user_function (methods cls).
Proof. repeat constructor. Qed.

(** C1.  The sequence processor of the module documentation, constructed
    with options [{'reverse': False}] (with or without debug), run on the
    four sequences: whatever the callbacks, the generator yields the
    success callback on state [AAAAAAATTTTTTT], the fail callback on the
    failed [ATAGACC], the success callback on the truncated [CCGGAC] and the
    success callback on [ATATGAACAAA], in this order, and is then exhausted;
    with the callbacks of the documentation these are the four documented
    lines. *)
Theorem C1_end_to_end (time : nat → Z) (dbg : bool) (R : Type)
    (success_callback fail_callback : Workflow string → R) :
  ∃ wf w1 w2 w3 w4 fin,
    new dbg false = inr wf ∧
    Workflow_call time cls wf seqs (Some success_callback) (Some fail_callback)
      = ([inr (success_callback w1); inr (fail_callback w2);
          inr (success_callback w3); inr (success_callback w4)], inr fin) ∧
    (state w1, failed w1) = ("AAAAAAATTTTTTT", false) ∧
    (state w2, failed w2) = ("ATAGACC", true) ∧
    (state w3, failed w3) = ("CCGGAC", false) ∧
    (state w4, failed w4) = ("ATATGAACAAA", false) ∧
    (Workflow_call time cls wf seqs (Some success_f) (Some fail_f)).1
      = [inr "SUCCESS: AAAAAAATTTTTTT"; inr "FAIL: ATAGACC";
         inr "SUCCESS: CCGGAC"; inr "SUCCESS: ATATGAACAAA"].
Proof.
  set (wf := instance dbg false).
  set (snaps := snapshots cls (_all_wf_methods time cls wf) seqs wf).
  assert (Hsnaps : (λ w, (state w, failed w)) <$> snaps
                   = [("AAAAAAATTTTTTT", false); ("ATAGACC", true);
                      ("CCGGAC", false); ("ATATGAACAAA", false)]).
  { subst snaps wf. destruct dbg; vm_compute; reflexivity. }
  pose proof (iterate_snapshots cls (_all_wf_methods time cls wf)
                (Some success_callback) (Some fail_callback) seqs wf) as Houts.
  fold snaps in Houts.
  assert (Hfin : ∃ fin, (iterate cls (_all_wf_methods time cls wf)
                           (Some success_callback) (Some fail_callback)
                           seqs wf).2 = inr fin).
  { apply iterate_complete. fold snaps.
    by rewrite <- (length_fmap (λ w, (state w, failed w))), Hsnaps. }
  destruct Hfin as [fin Hfin].
  destruct snaps as [|w1 [|w2 [|w3 [|w4 [|]]]]]; try done.
  injection Hsnaps as Hs1 Hf1 Hs2 Hf2 Hs3 Hf3 Hs4 Hf4.
  exists wf, w1, w2, w3, w4, fin.
  split; [apply new_instance|]. split.
  { unfold Workflow_call.
    destruct (iterate cls (_all_wf_methods time cls wf) _ _ seqs wf) as [o r].
    simpl in Houts, Hfin. subst o r. f_equal.
    unfold yielded. simpl. by rewrite Hf1, Hf2, Hf3, Hf4. }
  split; [by rewrite Hs1, Hf1|]. split; [by rewrite Hs2, Hf2|].
  split; [by rewrite Hs3, Hf3|]. split; [by rewrite Hs4, Hf4|].
  subst wf. destruct dbg; vm_compute; reflexivity.
Qed.

Lemma result_split {St A} (r : exn + (A * Workflow St)) da dw :
  raised r = false → r = inr (result_value r da, result_instance r dw).
Proof. by destruct r as [e|[a w]]. Qed.

Lemma result_exact {St A} (r : exn + (A * Workflow St)) a dw :
  raised r = false → result_value r a = a →
  r = inr (a, result_instance r dw).
Proof. destruct r as [e|[a' w]]; [done|]. simpl. by intros _ ->. Qed.

Lemma result_unit {St} (r : exn + (unit * Workflow St)) dw :
  raised r = false → r = inr (tt, result_instance r dw).
Proof. by destruct r as [e|[[] w]]. Qed.

(** Decides a closed proposition by evaluation. *)
Ltac by_decision :=
  match goal with
  | |- ?P => apply (bool_decide_unpack P); vm_compute; exact I
  end.

(** *** Counterexamples to the claims as they are stated *)

(** Evaluates the left-hand side of an equation and then matches the
    right-hand side, which may have holes, against the value. *)
Ltac by_evaluation :=
  match goal with
  | |- ?lhs = _ =>
      let v := eval vm_compute in lhs in
      transitivity v; [vm_compute; reflexivity|reflexivity]
  end.

(** C3 as stated fails: [zeta] is defined before [alpha] with the same
    priority, and [alpha] runs first. *)
Lemma C3_declaration_order_counterexample :
  __name__ <$> methods TieOrder.cls = ["zeta"; "alpha"] ∧
  priority <$> methods TieOrder.cls = [Some 0%Z; Some 0%Z] ∧
  ∃ wf,
    Workflow_init TieOrder.cls "" true false None ∅ = inr wf ∧
    __name__ <$> _all_wf_methods tick TieOrder.cls wf = ["alpha"; "zeta"] ∧
    (Workflow_call (R:=Empty_set) tick TieOrder.cls wf [""] None None).1
      = [inl "az"].
Proof.
  split; [reflexivity|]. split; [reflexivity|].
  exists (mkWorkflow "" ∅ true false false ∅ ∅ None 0).
  split; [vm_compute; reflexivity|]. split; vm_compute; reflexivity.
Qed.

(** C4: the code at the failing input.  For the step decorated with
    [requires(option='mode', values='fast')] and the options
    [{'mode': 'as'}], the body runs although the value of the option
    differs from the literal: [requires.__init__] keeps a [str] as it is,
    and ['as' in 'fast'] is the substring test.  The same literal in a list
    takes the branch that builds a set, and there the step is skipped, as
    it is for the literal itself when the option is ['slow'].  With the
    option set to the int [1], the test against the string literal raises
    [TypeError] instead of skipping the step. *)
Theorem C4_string_literal_substring :
  code Literal.needs_fast (Literal.with_mode (PStr "as"))
    = inr (RNone, set_state "ran" (Literal.with_mode (PStr "as"))) ∧
  py_eq (PStr "as") (PStr "fast") = false ∧
  code Literal.needs_fast_listed (Literal.with_mode (PStr "as"))
    = inr (_not_executed, Literal.with_mode (PStr "as")) ∧
  code Literal.needs_fast (Literal.with_mode (PStr "slow"))
    = inr (_not_executed, Literal.with_mode (PStr "slow")) ∧
  code Literal.needs_fast (Literal.with_mode (PStr "fast"))
    = inr (RNone, set_state "ran" (Literal.with_mode (PStr "fast"))) ∧
  code Literal.needs_fast (Literal.with_mode (PInt 1))
    = inl (TypeError "'in <string>' requires string as left operand").
Proof. repeat split; vm_compute; reflexivity. Qed.

(** C6 as stated fails: without a fail callback the four sequences give
    three results, the generator being exhausted normally. *)
Lemma C6_dropped_item_counterexample :
  ∃ fin,
    Workflow_call (R:=Empty_set) tick cls (instance false false) seqs None None
      = ([inl "AAAAAAATTTTTTT"; inl "CCGGAC"; inl "ATATGAACAAA"], inr fin) ∧
    length seqs = 4.
Proof. eexists. split; [by_evaluation|reflexivity]. Qed.

(** C2 as stated fails with debug enabled.  The first of the two steps,
    [a], calls the method [helper] of its class and sets [failed]; [b]
    does not run.  [_setup_debug] has wrapped [helper] as well, so the
    trace holds the keys of [a] and of [helper]: as many keys as there are
    steps, although the step that failed is not the last one. *)
Lemma C2_traced_helper_counterexample :
  Workflow_init Helper.cls "" true true None ∅ = inr Helper.wf ∧
  __name__ <$> _all_wf_methods tick Helper.cls Helper.wf
    = ["_setup_debug_trace"; "a"; "b"] ∧
  process_item Helper.cls (_all_wf_methods tick Helper.cls Helper.wf) "x"
    Helper.wf = inr (tt, Helper.final) ∧
  (state Helper.final, failed Helper.final) = ("xh", true) ∧
  debug_info Helper.final = Some Helper.final_debug ∧
  debug_trace Helper.final_debug = {[("a", 0); ("helper", 1)]} ∧
  length (wf_methods tick Helper.cls Helper.wf) = 2 ∧
  ¬ trace_size Helper.final < length (wf_methods tick Helper.cls Helper.wf).
Proof.
  assert (Hsize : trace_size Helper.final = 2) by (vm_compute; reflexivity).
  assert (Hlen : length (wf_methods tick Helper.cls Helper.wf) = 2)
    by (vm_compute; reflexivity).
  split; [vm_compute; reflexivity|]. split; [vm_compute; reflexivity|].
  split; [apply result_unit; vm_compute; reflexivity|].
  split; [vm_compute; reflexivity|].
  split.
  { unfold Helper.final_debug.
    assert (Hsome : bool_decide (is_Some (debug_info Helper.final)) = true)
      by (vm_compute; reflexivity).
    destruct (debug_info Helper.final) as [d|]; [reflexivity|].
    discriminate Hsome. }
  split; [by_decision|]. split; [exact Hlen|].
  rewrite Hsize, Hlen. lia.
Qed.

Lemma Gated_new : Workflow_init Gated.cls "" true true None ∅ = inr Gated.wf.
Proof. vm_compute. reflexivity. Qed.


(** *** The theorems with hypotheses, at concrete inputs *)


Lemma workflow_names :
  __name__ <$> Runs.workflow
  = ["_setup_debug_trace"; "check_length"; "truncate"; "reverse"].
Proof. vm_compute. reflexivity. Qed.

Lemma workflow_split :
  _all_wf_methods tick cls Runs.self
  = (Runs.pre ++ Runs.func :: Runs.post)%list.
Proof.
  assert (Hlen : length Runs.workflow = 4) by (vm_compute; reflexivity).
  unfold Runs.pre, Runs.func, Runs.post. fold Runs.workflow.
  destruct Runs.workflow as [|f0 [|f1 l]]; [done|done|reflexivity].
Qed.

Lemma cls_method_functions :
  Forall (method_function string tick) (methods cls).
Proof.
  eapply Forall_impl; [exact cls_user_functions|].
  intros f. apply user_function_method_function.
Qed.

Lemma C2_short_circuit_witness :
  Forall (method_function string tick) (methods cls) ∧
  _all_wf_methods tick cls Runs.self
    = (Runs.pre ++ Runs.func :: Runs.post)%list ∧
  short_circuit Runs.self = true ∧
  process_item cls Runs.pre "ATAGACC" Runs.self = inr (tt, Runs.before_check) ∧
  failed Runs.before_check = false ∧
  code Runs.func Runs.before_check = inr (RNone, Runs.after_check) ∧
  failed Runs.after_check = true ∧
  (∀ post',
     process_item cls (Runs.pre ++ Runs.func :: post') "ATAGACC" Runs.self
     = inr (tt, Runs.after_check)) ∧
  (Forall user_function (methods cls) → debug Runs.self = true →
   Runs.post ≠ [] →
   is_Some (debug_info Runs.after_check) ∧
   trace_size Runs.after_check < length (wf_methods tick cls Runs.self)).
Proof.
  assert (H1 : Forall (method_function string tick) (methods cls))
    by exact cls_method_functions.
  assert (H2 : _all_wf_methods tick cls Runs.self
               = (Runs.pre ++ Runs.func :: Runs.post)%list)
    by exact workflow_split.
  assert (H3 : short_circuit Runs.self = true) by reflexivity.
  assert (H4 : process_item cls Runs.pre "ATAGACC" Runs.self
               = inr (tt, Runs.before_check))
    by (apply result_unit; vm_compute; reflexivity).
  assert (H5 : failed Runs.before_check = false) by (vm_compute; reflexivity).
  assert (H6 : code Runs.func Runs.before_check = inr (RNone, Runs.after_check))
    by (apply result_exact; vm_compute; reflexivity).
  assert (H7 : failed Runs.after_check = true) by (vm_compute; reflexivity).
  split; [exact H1|]. split; [exact H2|]. split; [exact H3|].
  split; [exact H4|]. split; [exact H5|]. split; [exact H6|].
  split; [exact H7|].
  exact (C2_short_circuit tick cls Runs.self Runs.self Runs.before_check
           Runs.after_check "ATAGACC" Runs.pre Runs.post Runs.func RNone
           H1 H2 H3 H4 H5 H6 H7).
Defined.

Lemma explicit_values_gate_witness :
  explicit_values (OList [PInt 1; PInt 2; PInt 3])
    = Some [PInt 1; PInt 2; PInt 3] ∧
  options (Gated.with_foobar (PInt 2)) !! "foobar" = Some (PInt 2) ∧
  decorated (requires_init (Some "foobar") (OList [PInt 1; PInt 2; PInt 3]) None)
      Gated.awesome (Gated.with_foobar (PInt 2)) =
    if existsb (py_eq (PInt 2)) [PInt 1; PInt 2; PInt 3]
    then (code Gated.awesome ;;; ret RNone) (Gated.with_foobar (PInt 2))
    else inr (_not_executed, Gated.with_foobar (PInt 2)).
Proof.
  assert (H1 : explicit_values (OList [PInt 1; PInt 2; PInt 3])
               = Some [PInt 1; PInt 2; PInt 3]) by reflexivity.
  assert (H2 : options (Gated.with_foobar (PInt 2)) !! "foobar"
               = Some (PInt 2)) by (vm_compute; reflexivity).
  split; [exact H1|]. split; [exact H2|].
  apply (explicit_values_gate "foobar" (OList [PInt 1; PInt 2; PInt 3])
           None Gated.awesome (Gated.with_foobar (PInt 2)) (PInt 2)
           [PInt 1; PInt 2; PInt 3] H1 H2).
  intros p Hp. discriminate Hp.
Defined.

Lemma C6_output_cardinality_witness :
  Workflow_call tick cls (instance false false) seqs
      (Some success_f) (Some fail_f)
    = ([inr "SUCCESS: AAAAAAATTTTTTT"; inr "FAIL: ATAGACC";
        inr "SUCCESS: CCGGAC"; inr "SUCCESS: ATATGAACAAA"],
       inr Runs.plain_final) ∧
  length ([inr "SUCCESS: AAAAAAATTTTTTT"; inr "FAIL: ATAGACC";
           inr "SUCCESS: CCGGAC"; inr "SUCCESS: ATATGAACAAA"]
          : list (string + string)) = length seqs.
Proof.
  assert (H1 : Workflow_call tick cls (instance false false) seqs
                 (Some success_f) (Some fail_f)
               = ([inr "SUCCESS: AAAAAAATTTTTTT"; inr "FAIL: ATAGACC";
                   inr "SUCCESS: CCGGAC"; inr "SUCCESS: ATATGAACAAA"],
                  inr Runs.plain_final))
    by (vm_compute; reflexivity).
  split; [exact H1|].
  destruct (C6_output_cardinality tick cls (instance false false)
              Runs.plain_final seqs (Some success_f) (Some fail_f) _ H1)
    as (_ & Hall & _).
  apply Hall. exists fail_f. reflexivity.
Defined.


Lemma C9_tracer_keeps_failed_witness :
  wrapped tick check_length Runs.before_check = inr (RNone, Runs.after_wrapped) ∧
  ∃ d r1 w2,
    debug_info Runs.before_check = Some d ∧
    failed (traced_entry check_length d Runs.before_check)
      = failed Runs.before_check ∧
    code check_length (traced_entry check_length d Runs.before_check)
      = inr (r1, w2) ∧
    failed Runs.after_wrapped = failed w2 ∧
    (∀ req g, check_length = requires_call req g →
              requirement_met req Runs.before_check = inr false →
              r1 = _not_executed ∧
              failed Runs.after_wrapped = failed Runs.before_check).
Proof.
  assert (H1 : wrapped tick check_length Runs.before_check
               = inr (RNone, Runs.after_wrapped))
    by (apply result_exact; vm_compute; reflexivity).
  split; [exact H1|].
  exact (C9_tracer_keeps_failed tick check_length Runs.before_check
           Runs.after_wrapped RNone H1).
Defined.


(** The trace the module documentation shows for the first item: the gated
    [truncate] took the order value 1. *)
Example documented_trace :
  state Runs.after_first = "TTTTTTTAAAAAAA" ∧
  (debug_trace <$> debug_info Runs.after_first)
    = Some {[("check_length", 0); ("reverse", 2)]}.
Proof. split; [vm_compute; reflexivity|by_decision]. Qed.

(** * Further properties of the engine *)

Section Gate.

Context {St : Type}.

Abbreviation Workflow' := (Workflow St).
Abbreviation pyfunc' := (pyfunc St).

(** ** The requirement gate *)

(** A requirement whose state predicate fails, or whose option is not among
    the options of the instance, skips the function: [_not_executed] is
    returned, the instance is unchanged and nothing is raised, whatever the
    required values are and whatever the function is. *)
Theorem requirement_skips_quietly (r : requires St) (func : pyfunc')
    (w : Workflow') :
  (∃ p, required_state r = Some p ∧ p (state w) = false) ∨
  (∃ opt, req_option r = Some opt ∧ options w !! opt = None) →
  decorated r func w = inr (_not_executed, w).
Proof.
  intros Hskip. rewrite decorated_requirement_met. unfold requirement_met.
  destruct Hskip as [(p & -> & ->)|(opt & -> & ->)]; [done|].
  by destruct (match required_state r with
               | Some p => negb (p (state w)) | None => false end).
Qed.

(** A requirement without an option (the default) calls the function
    whenever the state predicate, if any, holds, whatever the options are;
    the result of the function is discarded and [None] returned. *)
Theorem requirement_without_option (vals : pyobj) (st : option (St → bool))
    (func : pyfunc') (w : Workflow') :
  (∀ p, st = Some p → p (state w) = true) →
  decorated (requires_init None vals st) func w = (code func ;;; ret RNone) w.
Proof.
  intros Hst. rewrite decorated_requirement_met. unfold requirement_met.
  simpl. destruct st as [p|]; [|done]. by rewrite (Hst p eq_refl).
Qed.

(** With the option present and the state predicate passing: [anything]
    (the default for [values]) accepts every value, [None] included, and
    [not_none] accepts every value but [None]. *)
Theorem sentinel_values_gate (opt : string) (st : option (St → bool))
    (func : pyfunc') (w : Workflow') (val : pyval) :
  options w !! opt = Some val →
  (∀ p, st = Some p → p (state w) = true) →
  decorated (requires_init (Some opt) OAnything st) func w
    = (code func ;;; ret RNone) w ∧
  decorated (requires_init (Some opt) ONotNone st) func w
    = if is_None val then inr (_not_executed, w)
      else (code func ;;; ret RNone) w.
Proof.
  intros Hopt Hst. rewrite !decorated_requirement_met. unfold requirement_met.
  simpl. rewrite Hopt.
  assert (Hp : match st with
               | Some p => negb (p (state w)) | None => false end = false).
  { destruct st as [p|]; [|done]. by rewrite (Hst p eq_refl). }
  rewrite Hp. split; [done|]. by destruct val.
Qed.

Lemma append_cons (c : Ascii.ascii) (a b : string) :
  (String c a ++ b)%string = String c (a ++ b)%string.
Proof. reflexivity. Qed.

Lemma append_empty (b : string) : ("" ++ b)%string = b.
Proof. reflexivity. Qed.

Lemma prefix_append (t s : string) :
  String.prefix t s = true ↔ ∃ b, s = (t ++ b)%string.
Proof.
  revert s. induction t as [|c t IH]; intros s.
  - split; [intros _; by exists s|intros _; by destruct s].
  - destruct s as [|c' s]; simpl.
    { split; [done|]. intros [b Hb]. rewrite append_cons in Hb. done. }
    destruct (Ascii.ascii_dec c c') as [->|Hne].
    + rewrite IH. split; intros [b Hb]; exists b.
      * by rewrite append_cons, Hb.
      * rewrite append_cons in Hb. by injection Hb.
    + split; [done|]. intros [b Hb]. rewrite append_cons in Hb.
      injection Hb as ? ?. done.
Qed.

Lemma is_substring_spec (t s : string) :
  is_substring t s = true ↔ ∃ a b, s = (a ++ t ++ b)%string.
Proof.
  induction s as [|c s IH]; cbn [is_substring].
  - rewrite orb_false_r, prefix_append. split.
    + intros [b Hb]. by exists "", b.
    + intros (a & b & Hab). destruct a as [|c a]; [by exists b|].
      rewrite append_cons in Hab. done.
  - rewrite orb_true_iff, prefix_append, IH. split.
    + intros [[b Hb]|(a & b & Hab)]; [by exists "", b|].
      exists (String c a), b. by rewrite append_cons, Hab.
    + intros (a & b & Hab). destruct a as [|c' a]; [left; by exists b|].
      right. rewrite append_cons in Hab. injection Hab as _ Hab.
      by exists a, b.
Qed.

(** A requirement on a single string literal, the option present and the
    state predicate passing: a string value is accepted exactly when it
    occurs somewhere in the literal (so the literal itself and the empty
    string are accepted, and so is every other substring); any value that is
    not a string makes the call raise [TypeError], and the function is not
    called. *)
Theorem string_literal_gate (opt lit : string) (st : option (St → bool))
    (func : pyfunc') (w : Workflow') (val : pyval) :
  options w !! opt = Some val →
  (∀ p, st = Some p → p (state w) = true) →
  match val with
  | PStr t =>
      decorated (requires_init (Some opt) (OAtom (PStr lit)) st) func w
        = (if is_substring t lit then (code func ;;; ret RNone) w
           else inr (_not_executed, w)) ∧
      (is_substring t lit = true ↔ ∃ a b, lit = (a ++ t ++ b)%string)
  | _ =>
      ∃ msg,
        decorated (requires_init (Some opt) (OAtom (PStr lit)) st) func w
          = inl (TypeError msg)
  end.
Proof.
  intros Hopt Hst.
  assert (Hp : match st with
               | Some p => negb (p (state w)) | None => false end = false).
  { destruct st as [p|]; [|done]. by rewrite (Hst p eq_refl). }
  destruct val as [|b|z|t];
    rewrite decorated_requirement_met; unfold requirement_met; simpl;
    rewrite Hopt, Hp; simpl; try by eexists.
  split; [by destruct (is_substring t lit)|apply is_substring_spec].
Qed.

(** For an option value that is [None], a bool, an int or a string (the
    values that can be hashed) and a state predicate that returns, the
    gate itself raises in one case only: a string literal as the required
    value and an option value that is not a string.  Every other exception
    of a gated function is then an exception of the function it wraps,
    called on the same instance.  (An option value that cannot be hashed,
    a list for instance, makes the membership test in a set raise as well;
    the embedding has no such values.) *)
Theorem gate_exceptions (r : requires St) (func : pyfunc') (w : Workflow')
    (e : exn) :
  decorated r func w = inl e →
  code func w = inl e ∨
  ∃ opt lit val msg,
    req_option r = Some opt ∧ values r = StrValues lit ∧
    options w !! opt = Some val ∧ (∀ t, val ≠ PStr t) ∧ e = TypeError msg.
Proof.
  rewrite decorated_requirement_met.
  destruct (requirement_met r w) as [e'|[|]] eqn:Hreq.
  - intros [= ->]. right. unfold requirement_met in Hreq.
    destruct (match required_state r with
              | Some p => negb (p (state w)) | None => false end); [done|].
    destruct (req_option r) as [opt|]; [|done].
    destruct (options w !! opt) as [val|] eqn:Hval; [|done].
    destruct (is_not_none (values r) && negb (is_None val)); [done|].
    destruct (values r) as [| |lit|l] eqn:Hvals; simpl in Hreq; try done.
    destruct val; try done; injection Hreq as <-;
      eexists opt, lit, _, _; (split; [done|]); (split; [done|]);
      (split; [done|]); (split; [|done]); by intros t.
  - unfold bind, ret. destruct (code func w) as [e'|[r' w']]; [|done].
    intros [= ->]. by left.
  - done.
Qed.

(** Two requirements stacked on one function: when the outer one is met and
    the inner one is not, the function is not run and the instance is
    unchanged, yet the call returns [None] and not [_not_executed]: the
    outer wrapper discards what the inner one returns, so the step counts
    as executed. *)
Theorem stacked_requirements_mask_skip (outer inner : requires St)
    (func : pyfunc') (w : Workflow') :
  requirement_met outer w = inr true →
  requirement_met inner w = inr false →
  code (requires_call outer (requires_call inner func)) w = inr (RNone, w).
Proof.
  intros Hout Hin. simpl. rewrite decorated_requirement_met, Hout.
  unfold bind, ret. simpl. by rewrite decorated_requirement_met, Hin.
Qed.

End Gate.

Section Runs.

Context {St Item : Type}.
Variable time : nat → Z.

Abbreviation Workflow'' := (Workflow St).
Abbreviation pyfunc'' := (pyfunc St).
Abbreviation WorkflowClass' := (WorkflowClass St Item).

(** ** The generator *)

(** A class that does not define [initialize_state] cannot process
    anything: on an empty input the generator ends at once, on any other
    input it raises [NotImplementedError] at the first item, before any
    step is called and without yielding. *)
Theorem missing_initialize_state {R} (cls : WorkflowClass') (self : Workflow'')
    (items : list Item) (sc fc : option (Workflow'' → R)) :
  initialize_state cls = None →
  Workflow_call time cls self items sc fc =
    match items with
    | [] => ([], inr self)
    | _ :: _ => ([], inl (NotImplementedError "Must implement this method"))
    end.
Proof.
  intros Hinit. destruct items as [|item rest]; [done|].
  unfold Workflow_call. simpl.
  unfold process_item, bind, modify, call_initialize_state.
  by rewrite Hinit.
Qed.

(** The items are processed one after another on the one instance:
    processing a concatenation is processing the first part and then the
    second part from the instance the first part left.  When the first part
    raises, what it yielded before stays yielded and nothing of the second
    part is processed. *)
Theorem iterate_app {R} (cls : WorkflowClass') (workflow : list pyfunc'')
    (sc fc : option (Workflow'' → R)) (l1 l2 : list Item) (self : Workflow'') :
  iterate cls workflow sc fc (l1 ++ l2) self =
    match iterate cls workflow sc fc l1 self with
    | (out1, inl e) => (out1, inl e)
    | (out1, inr self') =>
        let '(out2, fin) := iterate cls workflow sc fc l2 self' in
        ((out1 ++ out2)%list, fin)
    end.
Proof.
  revert self. induction l1 as [|item l1 IH]; intros self.
  - simpl. by destruct (iterate cls workflow sc fc l2 self).
  - simpl. destruct (process_item cls workflow item self) as [e|[u w1]];
      [done|].
    rewrite IH.
    destruct (iterate cls workflow sc fc l1 w1) as [out1 [e|w2]]; [done|].
    destruct (iterate cls workflow sc fc l2 w2) as [out2 fin].
    by rewrite app_assoc.
Qed.

(** With both callbacks given, every processed item yields exactly one
    value: the fail callback applied to the instance if the item ended
    failed, the success callback applied to it otherwise, in the order of
    the items. *)
Theorem callbacks_route_by_failed {R} (cls : WorkflowClass')
    (self : Workflow'') (items : list Item) (sc fc : Workflow'' → R) :
  (Workflow_call time cls self items (Some sc) (Some fc)).1 =
  (λ w, inr (if failed w then fc w else sc w))
    <$> snapshots cls (_all_wf_methods time cls self) items self.
Proof.
  unfold Workflow_call. rewrite iterate_snapshots.
  induction (snapshots cls (_all_wf_methods time cls self) items self)
    as [|w l IH]; [done|].
  rewrite !fmap_cons. cbn [concat]. rewrite IH. unfold yielded.
  by destruct (failed w).
Qed.

(** ** The inner loop without short circuiting *)

(** With [short_circuit] disabled the loop never breaks: every step is
    called, in order, whether or not an earlier one has set [failed]. *)
Theorem no_short_circuit_runs_all (l : list pyfunc'') (w : Workflow'') :
  Forall (workflow_step time) l →
  short_circuit w = false →
  run_workflow l w = run_all l w.
Proof.
  intros Hl. revert w. induction Hl as [|f l Hf Hl IH]; intros w Hsc; [done|].
  rewrite run_workflow_cons by (by rewrite Hsc).
  simpl. unfold bind.
  destruct (code f w) as [e|[r w1]] eqn:Hc; [done|].
  apply IH. destruct (workflow_step_fields time _ _ _ _ Hf Hc) as (-> & _).
  done.
Qed.

(** ** Instances without debug *)

Lemma getattr_untraced (cls : WorkflowClass') (self : Workflow'') n :
  traced self = ∅ → getattr time cls self n = class_dict cls !! n.
Proof.
  intros Htr. unfold getattr. rewrite Htr.
  destruct (class_dict cls !! n) as [f|]; [|done]. simpl.
  by rewrite bool_decide_false by set_solver.
Qed.

(** An instance constructed without debug runs the methods of the class as
    they are: processing an item creates no debug attribute and never reads
    the clock. *)
Theorem no_debug_no_trace (cls : WorkflowClass') (state0 : St)
    (short_circuit0 : bool) (options0 : option (gmap string pyval))
    (kwargs : gmap string pyval) (self w w' : Workflow'') (item : Item) :
  Forall user_function (methods cls) →
  Workflow_init cls state0 short_circuit0 false options0 kwargs = inr self →
  process_item cls (_all_wf_methods time cls self) item w = inr (tt, w') →
  Forall user_function (_all_wf_methods time cls self) ∧
  debug_info w' = debug_info w ∧ time_calls w' = time_calls w.
Proof.
  intros Hcls Hinit Hrun.
  assert (Hself : debug self = false ∧ traced self = ∅).
  { unfold Workflow_init, bind in Hinit.
    pose proof (set_kwargs_spec cls (map_to_list kwargs)
                  (mkWorkflow state0 (default ∅ options0) short_circuit0 false
                     false ∅ ∅ None 0) (NoDup_fst_map_to_list kwargs)) as Hk.
    destruct (set_kwargs cls (map_to_list kwargs) _) as [e|[u w0]]; [done|].
    destruct Hk as [_ ->]. simpl in Hinit. by injection Hinit as <-. }
  destruct Hself as [Hdebug Htr].
  assert (Hsteps : Forall user_function (_all_wf_methods time cls self)).
  { rewrite all_wf_methods_eq, Hdebug. simpl.
    rewrite sorted_reverse_Permutation. apply Forall_forall.
    intros obj Hobj. unfold wf_methods in Hobj.
    apply list_elem_of_omap in Hobj as (n & _ & Hobj).
    rewrite getattr_untraced in Hobj by done.
    destruct (class_dict cls !! n) as [f|] eqn:Hf; [|done]. simpl in Hobj.
    destruct (priority f); [|done]. injection Hobj as <-.
    apply class_dict_lookup in Hf as [Hin _].
    rewrite Forall_forall in Hcls. auto. }
  split; [done|].
  destruct (process_item_inv _ _ _ _ _ Hrun) as (wi & Hi & _ & Hdi & Hloop).
  apply call_initialize_state_frame in Hi.
  destruct (same_frame_fields _ _ Hi) as (_ & _ & _ & _ & _ & _ & Htc).
  simpl in Htc. rewrite <- Hdi, <- Htc. clear Hrun Hi Hdi Htc.
  revert wi Hloop. induction Hsteps as [|f l Hf Hl IH]; intros wi.
  - by intros [= <-].
  - destruct (short_circuit wi && failed wi) eqn:Hstop.
    { rewrite run_workflow_stop by done. by intros [= <-]. }
    rewrite run_workflow_cons by done.
    destruct (code f wi) as [e|[r w1]] eqn:Hc; [done|].
    intros Hloop. destruct (IH w1 Hloop) as [-> ->].
    pose proof (user_function_frame f Hf _ _ _ Hc) as Hfr.
    destruct (same_frame_fields _ _ Hfr) as (_ & _ & _ & _ & _ & ? & ?).
    done.
Qed.

(** ** Construction and the debug wrappers *)

Lemma Workflow_init_inv (cls : WorkflowClass') state0 short_circuit0 debug0
    options0 kwargs (self : Workflow'') :
  Workflow_init cls state0 short_circuit0 debug0 options0 kwargs = inr self →
  debug self = debug0 ∧ debug_info self = None ∧
  traced self
  = if debug0
    then list_to_set (filter (λ n, n ∉ dir_Workflow) (dir_methods cls))
    else ∅.
Proof.
  unfold Workflow_init, bind.
  pose proof (set_kwargs_spec cls (map_to_list kwargs)
                (mkWorkflow state0 (default ∅ options0) short_circuit0 false
                   debug0 ∅ ∅ None 0) (NoDup_fst_map_to_list kwargs)) as Hk.
  destruct (set_kwargs cls (map_to_list kwargs) _) as [e|[u w0]]; [done|].
  destruct Hk as [_ ->]. by destruct debug0; intros [= <-].
Qed.

(** On an instance constructed with debug, every method of the class whose
    name is not a member of the base class is replaced by its traced
    version; calling it before any item was processed raises
    [AttributeError], because the debug attributes do not exist yet, and
    the method itself is not run. *)
Theorem traced_method_before_run (cls : WorkflowClass') (state0 : St)
    (short_circuit0 : bool) (options0 : option (gmap string pyval))
    (kwargs : gmap string pyval) (self : Workflow'') (n : string)
    (f : pyfunc'') :
  Workflow_init cls state0 short_circuit0 true options0 kwargs = inr self →
  class_dict cls !! n = Some f →
  n ∉ dir_Workflow →
  getattr time cls self n = Some (_debug_trace_wrapper time f) ∧
  ∃ msg, code (_debug_trace_wrapper time f) self = inl (AttributeError msg).
Proof.
  intros (_ & Hdi & Htr)%Workflow_init_inv Hf Hn. split.
  - unfold getattr. rewrite Hf. simpl. rewrite Htr.
    rewrite bool_decide_true; [done|].
    apply elem_of_list_to_set, list_elem_of_filter. split; [done|].
    apply class_dict_dom. by eexists.
  - simpl. unfold wrapped, bind, get_debug. rewrite Hdi. by eexists.
Qed.

(** A traced step that is executed is recorded under the key made of its
    name and the counter: the counter is incremented, the key joins the
    trace set, the pre-state map holds the state before the call, the
    post-state map the state after it, and the runtime map the difference
    of the two clock readings; the entries of all other keys are kept. *)
Theorem executed_step_recorded (g : pyfunc'') (w w2 : Workflow'')
    (d : DebugInfo St) :
  user_function g →
  debug_info w = Some d →
  code g (traced_entry g d w) = inr (RNone, w2) →
  let key := (__name__ g, debug_counter d) in
  ∃ w' d',
    wrapped time g w = inr (RNone, w') ∧
    state w' = state w2 ∧ failed w' = failed w2 ∧
    debug_info w' = Some d' ∧
    debug_counter d' = S (debug_counter d) ∧
    debug_trace d' = {[key]} ∪ debug_trace d ∧
    debug_pre_state d' !! key = Some (state w) ∧
    debug_post_state d' !! key = Some (state w2) ∧
    debug_runtime d' !! key
      = Some (time (S (time_calls w)) - time (time_calls w))%Z ∧
    ∀ k, k ≠ key →
         debug_pre_state d' !! k = debug_pre_state d !! k ∧
         debug_post_state d' !! k = debug_post_state d !! k ∧
         debug_runtime d' !! k = debug_runtime d !! k.
Proof.
  intros Hg Hd Hc key.
  pose proof (user_function_frame g Hg _ _ _ Hc) as Hfr.
  destruct (same_frame_fields _ _ Hfr) as (_ & _ & _ & _ & _ & Hdi & Htc).
  simpl in Hdi, Htc.
  rewrite (wrapped_complete time g w d RNone w2 (entry_debug g d) Hd Hc Hdi)
    by done.
  eexists _, _. split; [reflexivity|]. simpl.
  split; [done|]. split; [done|]. split; [reflexivity|]. simpl.
  split; [done|]. split; [done|].
  rewrite !lookup_insert_eq, Htc.
  split; [done|]. split; [done|]. split; [done|].
  intros k Hk. by rewrite !lookup_insert_ne.
Qed.

(** With [short_circuit] disabled and every step traced, each step is
    evaluated, whatever [failed] becomes on the way: the counter advances
    by the number of steps at least (by more when a step calls other traced
    methods of the instance), and by exactly the number of steps when no
    step calls another method. *)
Theorem no_short_circuit_counts_all (fs : list pyfunc'') (w w' : Workflow'')
    (d : DebugInfo St) :
  Forall (λ f, ∃ g, method_function Item time g
                    ∧ f = _debug_trace_wrapper time g) fs →
  short_circuit w = false →
  debug_info w = Some d →
  trace_inv_during ∅ d →
  run_workflow fs w = inr (tt, w') →
  ∃ d', debug_info w' = Some d' ∧
        debug_counter d + length fs ≤ debug_counter d' ∧
        (Forall (λ f, ∃ g, user_function g
                           ∧ f = _debug_trace_wrapper time g) fs →
         debug_counter d' = debug_counter d + length fs).
Proof.
  intros Hfs. revert w d.
  induction Hfs as [|f fs (g & Hg & ->) Hfs IH]; intros w d Hsc Hd Hinv.
  - intros [= <-]. exists d. split; [done|]. simpl.
    split; [lia|]. intros _. lia.
  - rewrite run_workflow_cons by (by rewrite Hsc).
    destruct (code (_debug_trace_wrapper time g) w) as [e|[r w1]] eqn:Hc;
      [done|].
    intros Hrun.
    destruct (wrapped_trace time g w r w1
                (method_function_well_behaved time g Hg) Hc)
      as ((_ & Hsc1 & _) & Htr).
    destruct (Htr ∅ d Hd Hinv) as (d1 & Hd1 & Hinv1 & _ & Hadv).
    rewrite Hsc in Hsc1.
    destruct (IH w1 d1 Hsc1 Hd1 Hinv1 Hrun) as (d' & Hd' & Hle & Heq).
    exists d'. split; [done|]. split; [simpl; lia|].
    intros Huser. apply Forall_cons in Huser as [(g' & Hg' & Hgg') Huser].
    specialize (Heq Huser). rewrite Hgg' in Hc.
    destruct (traced_step_inv time g' w r w1 d Hg' Hc Hd
                (trace_inv_during_inv d Hinv))
      as (d1' & Hd1' & Hc1 & _).
    rewrite Hd1 in Hd1'. injection Hd1' as <-. simpl. lia.
Qed.

(** The order in which [__init__] meets the keywords does not matter: two
    orders of the same keywords either both fail with [AttributeError] or
    both succeed with the same instance. *)
Theorem kwargs_order_irrelevant (cls : WorkflowClass')
    (l1 l2 : list (string * pyval)) (w : Workflow'') :
  NoDup l1.*1 →
  l1 ≡ₚ l2 →
  match set_kwargs cls l1 w, set_kwargs cls l2 w with
  | inr (_, w1), inr (_, w2) => w1 = w2
  | inl e1, inl e2 =>
      (∃ k, e1 = AttributeError (k ++ " exists in self!")) ∧
      (∃ k, e2 = AttributeError (k ++ " exists in self!"))
  | _, _ => False
  end.
Proof.
  intros Hnd Hperm.
  assert (Hnd2 : NoDup l2.*1) by (by rewrite <- Hperm).
  pose proof (set_kwargs_spec cls l1 w Hnd) as H1.
  pose proof (set_kwargs_spec cls l2 w Hnd2) as H2.
  destruct (set_kwargs cls l1 w) as [e1|[u1 w1]],
           (set_kwargs cls l2 w) as [e2|[u2 w2]].
  - destruct H1 as (k1 & _ & _ & ->), H2 as (k2 & _ & _ & ->).
    split; by eexists.
  - destruct H1 as (k & Hk & Hhas & _), H2 as [Hall _].
    rewrite Hperm in Hk. rewrite (Hall k Hk) in Hhas. done.
  - destruct H2 as (k & Hk & Hhas & _), H1 as [Hall _].
    rewrite <- Hperm in Hk. rewrite (Hall k Hk) in Hhas. done.
  - destruct H1 as [_ ->], H2 as [_ ->].
    by rewrite (list_to_map_proper l1 l2 Hnd Hperm).
Qed.

Lemma omap_names_NoDup {A B} (g : A → option B) (nm : B → A) (l : list A) :
  (∀ x y, g x = Some y → nm y = x) → NoDup l → NoDup (nm <$> omap g l).
Proof.
  intros Hg. induction 1 as [|x l Hx Hl IH]; simpl; [constructor|].
  destruct (g x) as [y|] eqn:Hy; [|done].
  rewrite fmap_cons. constructor; [|done].
  rewrite (Hg _ _ Hy). intros Hin. apply Hx.
  apply list_elem_of_fmap in Hin as (z & -> & Hz).
  apply list_elem_of_omap in Hz as (x' & Hx' & Hgx').
  by rewrite (Hg _ _ Hgx').
Qed.

(** The steps of a workflow are the functions of the class that carry a
    priority, each one once: a function without the [Workflow.method]
    decoration is never a step, with or without debug. *)
Theorem workflow_methods_are_the_decorated_ones (cls : WorkflowClass')
    (self : Workflow'') :
  let steps := sorted_reverse priority_key (wf_methods time cls self) in
  _all_wf_methods time cls self
    = ((if debug self then [_setup_debug_trace] else []) ++ steps)%list ∧
  NoDup (__name__ <$> steps) ∧
  ∀ n, n ∈ __name__ <$> steps ↔
       ∃ f, class_dict cls !! n = Some f ∧ is_Some (priority f).
Proof.
  intros steps. split; [apply all_wf_methods_eq|].
  assert (Hnames : __name__ <$> steps ≡ₚ __name__ <$> wf_methods time cls self).
  { unfold steps. by rewrite sorted_reverse_Permutation. }
  assert (Hg : ∀ n obj,
             (getattr time cls self n
              ≫= λ obj, if priority obj is Some _ then Some obj else None)
             = Some obj → __name__ obj = n).
  { intros n obj Hobj.
    destruct (getattr time cls self n) as [o|] eqn:Hget; [|done].
    simpl in Hobj. destruct (priority o); [|done]. injection Hobj as <-.
    by eapply getattr_name. }
  split.
  - rewrite Hnames. unfold wf_methods.
    apply omap_names_NoDup; [exact Hg|apply dir_methods_NoDup].
  - intros n. rewrite Hnames, list_elem_of_fmap. split.
    + intros (obj & -> & Hobj). unfold wf_methods in Hobj.
      apply list_elem_of_omap in Hobj as (n & Hn & Hobj).
      pose proof (Hg _ _ Hobj) as <-.
      destruct (getattr time cls self (__name__ obj)) as [o|] eqn:Hget;
        [|done].
      simpl in Hobj. destruct (priority o) as [p|] eqn:Hp; [|done].
      injection Hobj as ->.
      destruct (getattr_priority time _ _ _ _ Hget) as (f & Hf & Hpf & _).
      exists f. split; [done|]. rewrite <- Hpf, Hp. by eexists.
    + intros (f & Hf & [p Hp]).
      assert (Hget : ∃ obj, getattr time cls self n = Some obj
                            ∧ priority obj = Some p).
      { unfold getattr. rewrite Hf. simpl. eexists. split; [done|].
        by case_bool_decide. }
      destruct Hget as (obj & Hget & Hpo).
      exists obj. split; [symmetry; by eapply getattr_name|].
      unfold wf_methods. apply list_elem_of_omap. exists n.
      split; [apply class_dict_dom; by eexists|].
      rewrite Hget. simpl. by rewrite Hpo.
Qed.

End Runs.

(** ** Debug mode does not change the results *)

Section Transparency.

Context {St Item : Type}.
Variable time : nat → Z.

Abbreviation WorkflowT := (Workflow St).
Abbreviation pyfuncT := (pyfunc St).
Abbreviation WorkflowClassT := (WorkflowClass St Item).

Lemma agree_refl (w : WorkflowT) : agree w w.
Proof. by repeat split. Qed.

Lemma agree_sym (w w' : WorkflowT) : agree w w' → agree w' w.
Proof. intros (?&?&?&?&?). by repeat split. Qed.

Lemma agree_trans (w1 w2 w3 : WorkflowT) :
  agree w1 w2 → agree w2 w3 → agree w1 w3.
Proof. intros (?&?&?&?&?) (?&?&?&?&?). repeat split; congruence. Qed.

Lemma plain_function_user (f : pyfuncT) : plain_function f → user_function f.
Proof. induction 1; by constructor. Qed.

Lemma requirement_met_agree (r : requires St) (w w' : WorkflowT) :
  agree w w' → requirement_met r w = requirement_met r w'.
Proof. intros (Hs & Ho & _). by apply requirement_met_frame. Qed.

Lemma plain_function_agree (f : pyfuncT) :
  plain_function f →
  ∀ w w', agree w w' → same_outcome (code f w) (code f w').
Proof.
  induction 1 as [name b Hb|p f Hf IH|r f Hf IH]; intros w w' Hag.
  - simpl. unfold bind, ret, run_body. rewrite (Hb w w' Hag).
    destruct (b w') as [e|[s fl]]; simpl; [done|].
    destruct Hag as (_ & Ho & _ & Hsc & Hex). by repeat split.
  - by apply IH.
  - simpl. rewrite !decorated_requirement_met.
    rewrite (requirement_met_agree r w w' Hag).
    destruct (requirement_met r w') as [e|[|]]; simpl; [done| |done].
    unfold bind, ret. specialize (IH w w' Hag).
    by destruct (code f w) as [e|[r1 w1]], (code f w') as [e'|[r1' w1']].
Qed.

Lemma traced_entry_agree (g : pyfuncT) d (w : WorkflowT) :
  agree w (traced_entry g d w).
Proof. by repeat split. Qed.

Lemma traced_step_agree (g : pyfuncT) (w w' : WorkflowT) :
  plain_function g → agree w w' → is_Some (debug_info w') →
  same_outcome (code g w) (wrapped time g w') ∧
  ∀ r w1, wrapped time g w' = inr (r, w1) → is_Some (debug_info w1).
Proof.
  intros Hg Hag [d Hd].
  pose proof (plain_function_agree g Hg w (traced_entry g d w')
                (agree_trans _ _ _ Hag (traced_entry_agree g d w'))) as Hsim.
  destruct (code g (traced_entry g d w')) as [e'|[r1 w2]] eqn:Hc.
  - assert (Hw : wrapped time g w' = inl e').
    { unfold wrapped, bind, get_debug, get, modify, read_time.
      rewrite Hd. simpl. unfold traced_entry, entry_debug in Hc.
      by rewrite Hc. }
    rewrite Hw. split; [|done].
    by destruct (code g w) as [e|[r w1]].
  - pose proof (user_function_frame g (plain_function_user g Hg) _ _ _ Hc)
      as Hfr.
    destruct (same_frame_fields _ _ Hfr) as (_ & _ & _ & _ & _ & Hdi & _).
    simpl in Hdi.
    rewrite (wrapped_complete time g w' d r1 w2 (entry_debug g d) Hd Hc Hdi)
      by (intros _; simpl; set_solver).
    split.
    + destruct (code g w) as [e|[r w1]]; [done|]. simpl in *.
      destruct Hsim as (?&?&?&?&?). by destruct r1; repeat split.
    + intros r w1 [= <- <-]. by destruct r1; eexists.
Qed.

Lemma run_workflow_agree (lp ld : list pyfuncT) (w w' : WorkflowT) :
  Forall2 (traced_or_same time) lp ld →
  agree w w' → is_Some (debug_info w') →
  same_outcome (run_workflow lp w) (run_workflow ld w').
Proof.
  intros Hl. revert w w'.
  induction Hl as [|fp fd lp ld [Hfp Hfd] Hl IH]; intros w w' Hag Hsome.
  - done.
  - assert (Hstop : short_circuit w && failed w
                    = short_circuit w' && failed w').
    { destruct Hag as (_ & _ & -> & -> & _). done. }
    destruct (short_circuit w' && failed w') eqn:Hs.
    { by rewrite !run_workflow_stop by done. }
    rewrite !run_workflow_cons by done.
    assert (Hstep : same_outcome (code fp w) (code fd w') ∧
                    ∀ r w1, code fd w' = inr (r, w1) → is_Some (debug_info w1)).
    { destruct Hfd as [-> | ->].
      - split; [by apply plain_function_agree|].
        intros r w1 Hc.
        pose proof (user_function_frame fp (plain_function_user fp Hfp)
                      _ _ _ Hc) as Hfr.
        destruct (same_frame_fields _ _ Hfr) as (_&_&_&_&_& -> &_). done.
      - by apply traced_step_agree. }
    destruct Hstep as [Hsim Hkeep].
    destruct (code fp w) as [e|[r w1]], (code fd w') as [e'|[r' w1']];
      try done.
    apply IH; [done|by eapply Hkeep].
Qed.

Lemma insert_reverse_Forall2 {A B} (R : A → B → Prop) (ka : A → Z)
    (kb : B → Z) x y l1 l2 :
  ka x = kb y →
  Forall2 (λ a b, R a b ∧ ka a = kb b) l1 l2 →
  R x y →
  Forall2 (λ a b, R a b ∧ ka a = kb b)
          (insert_reverse ka x l1) (insert_reverse kb y l2).
Proof.
  intros Hk Hl Hxy. induction Hl as [|a b l1 l2 [Hab Hkab] Hl IH]; simpl.
  - by repeat constructor.
  - rewrite Hk, Hkab. case_bool_decide; by repeat constructor.
Qed.

Lemma sorted_reverse_Forall2 {A B} (R : A → B → Prop) (ka : A → Z)
    (kb : B → Z) l1 l2 :
  Forall2 (λ a b, R a b ∧ ka a = kb b) l1 l2 →
  Forall2 (λ a b, R a b ∧ ka a = kb b)
          (sorted_reverse ka l1) (sorted_reverse kb l2).
Proof.
  induction 1 as [|a b l1 l2 [Hab Hk] Hl IH]; simpl; [constructor|].
  by apply insert_reverse_Forall2.
Qed.

Lemma wf_methods_agree (cls : WorkflowClassT) (self_p self_d : WorkflowT) :
  Forall plain_function (methods cls) →
  traced self_p = ∅ →
  Forall2 (λ fp fd, traced_or_same time fp fd
                    ∧ priority_key fp = priority_key fd)
          (wf_methods time cls self_p) (wf_methods time cls self_d).
Proof.
  intros Hcls Htr. unfold wf_methods.
  induction (dir_methods cls) as [|n l IH]; [constructor|].
  simpl. rewrite (getattr_untraced time cls self_p n Htr).
  unfold getattr. destruct (class_dict cls !! n) as [f|] eqn:Hf; [|done].
  simpl. assert (Hpf : plain_function f).
  { apply class_dict_lookup in Hf as [Hin _].
    rewrite Forall_forall in Hcls. auto. }
  case_bool_decide; simpl; destruct (priority f) eqn:Hp; simpl;
    rewrite ?Hp; try done;
    (constructor; [|done]); (split; [split; [done|]|]); auto;
    unfold priority_key; simpl; by rewrite Hp.
Qed.

Lemma process_item_agree (cls : WorkflowClassT) (self_p self_d w w' : WorkflowT)
    (item : Item) :
  Forall plain_function (methods cls) →
  (∀ f, initialize_state cls = Some f → body_plain (f item)) →
  debug self_p = false → traced self_p = ∅ → debug self_d = true →
  agree w w' →
  same_outcome (process_item cls (_all_wf_methods time cls self_p) item w)
               (process_item cls (_all_wf_methods time cls self_d) item w').
Proof.
  intros Hcls Hinit Hdp Htr Hdd Hag.
  rewrite !all_wf_methods_eq, Hdp, Hdd. cbn [app].
  unfold process_item, bind, modify.
  assert (Hi : same_outcome
                 (call_initialize_state cls item (set_failed false w))
                 (call_initialize_state cls item (set_failed false w'))).
  { unfold call_initialize_state.
    destruct (initialize_state cls) as [f|] eqn:Hf; [|done].
    assert (Hag0 : agree (set_failed false w) (set_failed false w')).
    { destruct Hag as (?&?&?&?&?). by repeat split. }
    unfold run_body. rewrite (Hinit f eq_refl _ _ Hag0).
    destruct (f item (set_failed false w')) as [e|[s fl]]; [done|].
    simpl. destruct Hag as (?&?&?&?&?). by repeat split. }
  destruct (call_initialize_state cls item (set_failed false w))
    as [e|[u wi]],
    (call_initialize_state cls item (set_failed false w')) as [e'|[u' wi']];
    try done.
  simpl in Hi.
  assert (Hstop : short_circuit wi && failed wi
                  = short_circuit wi' && failed wi').
  { destruct Hi as (_ & _ & -> & -> & _). done. }
  destruct (short_circuit wi' && failed wi') eqn:Hs.
  { by rewrite !run_workflow_stop by done. }
  rewrite (run_workflow_cons _setup_debug_trace) by done.
  change (code _setup_debug_trace wi')
    with (inr (RNone, set_debug_info (Some empty_debug) wi')
          : exn + (retval * WorkflowT)).
  cbv iota beta.
  apply run_workflow_agree.
  - pose proof (sorted_reverse_Forall2 (traced_or_same time) priority_key
                  priority_key _ _ (wf_methods_agree cls self_p self_d
                                      Hcls Htr)) as Hl.
    eapply Forall2_impl; [exact Hl|]. by intros fp fd [? _].
  - destruct Hi as (?&?&?&?&?). by repeat split.
  - by eexists.
Qed.

Lemma iterate_agree {R} (cls : WorkflowClassT) (wp wd : list pyfuncT)
    (sc fc : option (WorkflowT → R)) (items : list Item) (w w' : WorkflowT) :
  (∀ item w w', agree w w' →
     same_outcome (process_item cls wp item w) (process_item cls wd item w')) →
  (∀ cb, sc = Some cb ∨ fc = Some cb → ∀ w w', agree w w' → cb w = cb w') →
  agree w w' →
  (iterate cls wd sc fc items w').1 = (iterate cls wp sc fc items w).1 ∧
  same_end (iterate cls wp sc fc items w).2 (iterate cls wd sc fc items w').2.
Proof.
  intros Hstep Hcb. revert w w'.
  induction items as [|item rest IH]; intros w w' Hag; [done|].
  simpl. pose proof (Hstep item w w' Hag) as Hsim.
  destruct (process_item cls wp item w) as [e|[u w1]],
    (process_item cls wd item w') as [e'|[u' w1']]; try done.
  simpl in Hsim. specialize (IH w1 w1' Hsim).
  destruct (iterate cls wp sc fc rest w1) as [outp finp],
    (iterate cls wd sc fc rest w1') as [outd find].
  simpl in *. destruct IH as [-> Hfin]. split; [|done]. f_equal.
  unfold yielded. destruct Hsim as (Hs & Ho & Hf & Hsc & Hex). rewrite <- Hf.
  assert (Hsim' : agree w1 w1') by (by repeat split).
  destruct (failed w1).
  - destruct fc as [f|]; [|done]. by rewrite (Hcb f (or_intror eq_refl) w1 w1').
  - destruct sc as [f|]; [|by rewrite Hs].
    by rewrite (Hcb f (or_introl eq_refl) w1 w1').
Qed.

(** Debug mode is transparent.  For a class whose methods, state
    initialiser and callbacks read nothing of the debug machinery, the
    instance with debug and the instance without yield the same values on
    the same input and end in the same way: exhausted with instances that
    agree, or with the same exception. *)
Theorem debug_is_transparent {R} (cls : WorkflowClassT)
    (self_p self_d : WorkflowT) (items : list Item)
    (sc fc : option (WorkflowT → R)) :
  Forall plain_function (methods cls) →
  (∀ f item, initialize_state cls = Some f → body_plain (f item)) →
  (∀ cb, sc = Some cb ∨ fc = Some cb → ∀ w w', agree w w' → cb w = cb w') →
  debug self_p = false → traced self_p = ∅ → debug self_d = true →
  agree self_p self_d →
  (Workflow_call time cls self_d items sc fc).1
    = (Workflow_call time cls self_p items sc fc).1 ∧
  same_end (Workflow_call time cls self_p items sc fc).2
           (Workflow_call time cls self_d items sc fc).2.
Proof.
  intros Hcls Hinit Hcb Hdp Htr Hdd Hag. unfold Workflow_call.
  apply iterate_agree; [|done|done].
  intros item w w' Hww.
  by apply (process_item_agree cls self_p self_d w w' item Hcls
              (λ f, Hinit f item)).
Qed.

End Transparency.

Section Stale.

Context {St Item : Type}.

(** When [initialize_state] leaves [failed] set under short circuiting, the
    loop ends before its first step: no workflow method is called, and with
    debug not even the reset of the debug attributes, so these are still
    those of the item before.  The item is reported through the fail
    callback, or dropped. *)
Theorem failed_before_first_step {R} (cls : WorkflowClass St Item)
    (workflow : list (pyfunc St)) (item : Item) (w wi : Workflow St) :
  call_initialize_state cls item (set_failed false w) = inr (tt, wi) →
  short_circuit wi = true →
  failed wi = true →
  process_item cls workflow item w = inr (tt, wi) ∧
  debug_info wi = debug_info w ∧
  ∀ sc fc : option (Workflow St → R),
    yielded sc fc wi = match fc with Some f => [inr (f wi)] | None => [] end.
Proof.
  intros Hi Hsc Hf. split; [|split].
  - unfold process_item, bind, modify. rewrite Hi.
    apply run_workflow_stop. by rewrite Hsc, Hf.
  - apply call_initialize_state_frame in Hi.
    destruct (same_frame_fields _ _ Hi) as (_&_&_&_&_& -> &_). done.
  - intros sc fc. unfold yielded. by rewrite Hf.
Qed.

End Stale.

(** ** The further properties at concrete inputs *)

Lemma requirement_skips_quietly_witness :
  (∃ opt, req_option (requires_init (St:=string) (Some "foo") ONotNone None)
          = Some opt ∧ options Gated.wf !! opt = None) ∧
  decorated (requires_init (Some "foo") ONotNone None) Gated.awesome Gated.wf
    = inr (_not_executed, Gated.wf).
Proof.
  assert (H1 : ∃ opt,
             req_option (requires_init (St:=string) (Some "foo") ONotNone None)
             = Some opt ∧ options Gated.wf !! opt = None)
    by (exists "foo"; split; reflexivity).
  split; [exact H1|].
  exact (requirement_skips_quietly
           (requires_init (Some "foo") ONotNone None) Gated.awesome Gated.wf
           (or_intror H1)).
Defined.

Lemma requirement_without_option_witness :
  has_nuc_pattern (state Cases.patterned) = true ∧
  decorated (requires_init None OAnything (Some has_nuc_pattern))
      Gated.awesome Cases.patterned
    = (code Gated.awesome ;;; ret RNone) Cases.patterned.
Proof.
  assert (H1 : has_nuc_pattern (state Cases.patterned) = true)
    by (vm_compute; reflexivity).
  split; [exact H1|].
  apply (requirement_without_option OAnything (Some has_nuc_pattern)
           Gated.awesome Cases.patterned).
  intros p Hp. injection Hp as <-. exact H1.
Defined.

Lemma sentinel_values_gate_witness :
  options (Literal.with_mode PNone) !! "mode" = Some PNone ∧
  decorated (requires_init (Some "mode") OAnything None) Literal.mark
      (Literal.with_mode PNone)
    = (code Literal.mark ;;; ret RNone) (Literal.with_mode PNone) ∧
  decorated (requires_init (Some "mode") ONotNone None) Literal.mark
      (Literal.with_mode PNone)
    = if is_None PNone then inr (_not_executed, Literal.with_mode PNone)
      else (code Literal.mark ;;; ret RNone) (Literal.with_mode PNone).
Proof.
  assert (H1 : options (Literal.with_mode PNone) !! "mode" = Some PNone)
    by (vm_compute; reflexivity).
  split; [exact H1|].
  apply (sentinel_values_gate "mode" None Literal.mark
           (Literal.with_mode PNone) PNone H1).
  intros p Hp. discriminate Hp.
Defined.

Lemma string_literal_gate_witness :
  options (Literal.with_mode (PStr "as")) !! "mode" = Some (PStr "as") ∧
  decorated (requires_init (Some "mode") (OAtom (PStr "fast")) None)
      Literal.mark (Literal.with_mode (PStr "as"))
    = (if is_substring "as" "fast"
       then (code Literal.mark ;;; ret RNone) (Literal.with_mode (PStr "as"))
       else inr (_not_executed, Literal.with_mode (PStr "as"))) ∧
  (is_substring "as" "fast" = true
   ↔ ∃ a b, "fast" = (a ++ "as" ++ b)%string).
Proof.
  assert (H1 : options (Literal.with_mode (PStr "as")) !! "mode"
               = Some (PStr "as")) by (vm_compute; reflexivity).
  split; [exact H1|].
  apply (string_literal_gate "mode" "fast" None Literal.mark
           (Literal.with_mode (PStr "as")) (PStr "as") H1).
  intros p Hp. discriminate Hp.
Defined.

Lemma gate_exceptions_witness :
  decorated (requires_init (Some "mode") (OAtom (PStr "fast")) None)
      Literal.mark (Literal.with_mode (PInt 1))
    = inl (TypeError "'in <string>' requires string as left operand") ∧
  (code Literal.mark (Literal.with_mode (PInt 1))
     = inl (TypeError "'in <string>' requires string as left operand") ∨
   ∃ opt lit val msg,
     req_option (requires_init (St:=string) (Some "mode")
                   (OAtom (PStr "fast")) None) = Some opt ∧
     values (requires_init (St:=string) (Some "mode")
               (OAtom (PStr "fast")) None) = StrValues lit ∧
     options (Literal.with_mode (PInt 1)) !! opt = Some val ∧
     (∀ t, val ≠ PStr t) ∧
     TypeError "'in <string>' requires string as left operand"
       = TypeError msg).
Proof.
  assert (H1 : decorated (requires_init (Some "mode") (OAtom (PStr "fast")) None)
                 Literal.mark (Literal.with_mode (PInt 1))
               = inl (TypeError "'in <string>' requires string as left operand"))
    by (vm_compute; reflexivity).
  split; [exact H1|].
  exact (gate_exceptions
           (requires_init (Some "mode") (OAtom (PStr "fast")) None)
           Literal.mark (Literal.with_mode (PInt 1)) _ H1).
Defined.

Lemma stacked_requirements_mask_skip_witness :
  requirement_met (requires_init None OAnything None) Gated.wf = inr true ∧
  requirement_met (requires_init (Some "foo") ONotNone None) Gated.wf
    = inr false ∧
  code (requires_call (requires_init None OAnything None)
          (requires_call (requires_init (Some "foo") ONotNone None)
             Gated.awesome)) Gated.wf
    = inr (RNone, Gated.wf).
Proof.
  assert (H1 : requirement_met (requires_init None OAnything None) Gated.wf
               = inr true) by (vm_compute; reflexivity).
  assert (H2 : requirement_met (requires_init (Some "foo") ONotNone None)
                 Gated.wf = inr false) by (vm_compute; reflexivity).
  split; [exact H1|]. split; [exact H2|].
  exact (stacked_requirements_mask_skip (requires_init None OAnything None)
           (requires_init (Some "foo") ONotNone None) Gated.awesome Gated.wf
           H1 H2).
Defined.

Lemma missing_initialize_state_witness :
  initialize_state Cases.bare = None ∧
  Workflow_call (R:=Empty_set) tick Cases.bare (instance false false) ["x"]
      None None
    = ([], inl (NotImplementedError "Must implement this method")).
Proof.
  assert (H1 : initialize_state Cases.bare = None) by reflexivity.
  split; [exact H1|].
  exact (missing_initialize_state tick Cases.bare (instance false false) ["x"]
           None None H1).
Defined.

Lemma lenient_traced : ∀ n, n ∈ dir_methods cls → n ∈ traced Cases.lenient.
Proof.
  assert (Hdir : dir_methods cls = ["check_length"; "reverse"; "truncate"])
    by (vm_compute; reflexivity).
  intros n Hn. rewrite Hdir in Hn.
  change (n ∈ (list_to_set ["check_length"; "reverse"; "truncate"]
               : gset string)).
  apply elem_of_list_to_set, Hn.
Qed.

Lemma lenient_steps_traced :
  Forall (λ f, ∃ g, user_function g ∧ f = _debug_trace_wrapper tick g)
         Cases.lenient_steps.
Proof.
  unfold Cases.lenient_steps. rewrite sorted_reverse_Permutation.
  apply wf_methods_traced; [exact cls_user_functions|exact lenient_traced].
Qed.

Lemma no_short_circuit_runs_all_witness :
  Forall (workflow_step tick) (_all_wf_methods tick cls Cases.lenient) ∧
  short_circuit (Cases.reset_short Cases.lenient) = false ∧
  run_workflow (_all_wf_methods tick cls Cases.lenient)
      (Cases.reset_short Cases.lenient)
    = run_all (_all_wf_methods tick cls Cases.lenient)
        (Cases.reset_short Cases.lenient).
Proof.
  assert (H1 : Forall (workflow_step tick)
                 (_all_wf_methods tick cls Cases.lenient))
    by exact (all_wf_methods_steps tick cls Cases.lenient cls_user_functions).
  assert (H2 : short_circuit (Cases.reset_short Cases.lenient) = false)
    by reflexivity.
  split; [exact H1|]. split; [exact H2|].
  exact (no_short_circuit_runs_all tick _ _ H1 H2).
Defined.

Lemma no_debug_no_trace_witness :
  Forall user_function (methods cls) ∧
  new false false = inr (instance false false) ∧
  process_item cls (_all_wf_methods tick cls (instance false false)) "ATAGACC"
      (instance false false) = inr (tt, Cases.plain_done) ∧
  Forall user_function (_all_wf_methods tick cls (instance false false)) ∧
  debug_info Cases.plain_done = debug_info (instance false false) ∧
  time_calls Cases.plain_done = time_calls (instance false false).
Proof.
  assert (H1 : Forall user_function (methods cls)) by exact cls_user_functions.
  assert (H2 : new false false = inr (instance false false))
    by exact (new_instance false false).
  assert (H3 : process_item cls (_all_wf_methods tick cls (instance false false))
                 "ATAGACC" (instance false false)
               = inr (tt, Cases.plain_done))
    by (apply result_unit; vm_compute; reflexivity).
  split; [exact H1|]. split; [exact H2|]. split; [exact H3|].
  exact (no_debug_no_trace tick cls "" true
           (Some {["reverse" := PBool false]}) ∅ (instance false false)
           (instance false false) Cases.plain_done "ATAGACC" H1 H2 H3).
Defined.

Lemma traced_method_before_run_witness :
  new true true = inr (instance true true) ∧
  class_dict cls !! "check_length" = Some check_length ∧
  "check_length" ∉ dir_Workflow ∧
  getattr tick cls (instance true true) "check_length"
    = Some (_debug_trace_wrapper tick check_length) ∧
  ∃ msg, code (_debug_trace_wrapper tick check_length) (instance true true)
         = inl (AttributeError msg).
Proof.
  assert (H1 : new true true = inr (instance true true))
    by exact (new_instance true true).
  assert (H2 : class_dict cls !! "check_length" = Some check_length)
    by (vm_compute; reflexivity).
  assert (H3 : "check_length" ∉ dir_Workflow) by by_decision.
  split; [exact H1|]. split; [exact H2|]. split; [exact H3|].
  exact (traced_method_before_run tick cls "" true
           (Some {["reverse" := PBool true]}) ∅ (instance true true)
           "check_length" check_length H1 H2 H3).
Defined.

Lemma executed_step_recorded_witness :
  user_function check_length ∧
  debug_info (Cases.reset_short Runs.self) = Some empty_debug ∧
  code check_length
      (traced_entry check_length empty_debug (Cases.reset_short Runs.self))
    = inr (RNone, Cases.checked) ∧
  ∃ w' d',
    wrapped tick check_length (Cases.reset_short Runs.self) = inr (RNone, w') ∧
    state w' = state Cases.checked ∧ failed w' = failed Cases.checked ∧
    debug_info w' = Some d' ∧
    debug_counter d' = 1 ∧
    debug_trace d' = {[("check_length", 0)]} ∪ ∅ ∧
    debug_pre_state d' !! ("check_length", 0) = Some "ATAGACC" ∧
    debug_post_state d' !! ("check_length", 0) = Some (state Cases.checked) ∧
    debug_runtime d' !! ("check_length", 0) = Some (tick 1 - tick 0)%Z ∧
    ∀ k, k ≠ ("check_length", 0) →
         debug_pre_state d' !! k = (∅ : gmap trace_key string) !! k ∧
         debug_post_state d' !! k = (∅ : gmap trace_key string) !! k ∧
         debug_runtime d' !! k = (∅ : gmap trace_key Z) !! k.
Proof.
  assert (H1 : user_function check_length) by (repeat constructor).
  assert (H2 : debug_info (Cases.reset_short Runs.self) = Some empty_debug)
    by reflexivity.
  assert (H3 : code check_length
                 (traced_entry check_length empty_debug
                    (Cases.reset_short Runs.self))
               = inr (RNone, Cases.checked))
    by (apply result_exact; vm_compute; reflexivity).
  split; [exact H1|]. split; [exact H2|]. split; [exact H3|].
  exact (executed_step_recorded tick check_length
           (Cases.reset_short Runs.self) Cases.checked empty_debug H1 H2 H3).
Defined.

Lemma lenient_steps_methods :
  Forall (λ f, ∃ g, method_function string tick g
                    ∧ f = _debug_trace_wrapper tick g) Cases.lenient_steps.
Proof.
  eapply Forall_impl; [exact lenient_steps_traced|].
  intros f (g & Hg & ->). exists g.
  split; [by apply user_function_method_function|done].
Qed.

Lemma no_short_circuit_counts_all_witness :
  short_circuit (Cases.reset_short Cases.lenient) = false ∧
  debug_info (Cases.reset_short Cases.lenient) = Some empty_debug ∧
  trace_inv_during ∅ (@empty_debug string) ∧
  run_workflow Cases.lenient_steps (Cases.reset_short Cases.lenient)
    = inr (tt, Cases.lenient_done) ∧
  failed Cases.lenient_done = true ∧
  ∃ d', debug_info Cases.lenient_done = Some d' ∧
        0 + length Cases.lenient_steps ≤ debug_counter d' ∧
        (Forall (λ f, ∃ g, user_function g
                           ∧ f = _debug_trace_wrapper tick g)
                Cases.lenient_steps →
         debug_counter d' = 0 + length Cases.lenient_steps).
Proof.
  assert (H1 : short_circuit (Cases.reset_short Cases.lenient) = false)
    by reflexivity.
  assert (H2 : debug_info (Cases.reset_short Cases.lenient) = Some empty_debug)
    by reflexivity.
  assert (H3 : run_workflow Cases.lenient_steps
                 (Cases.reset_short Cases.lenient)
               = inr (tt, Cases.lenient_done))
    by (apply result_unit; vm_compute; reflexivity).
  split; [exact H1|]. split; [exact H2|].
  split; [exact trace_inv_during_empty|]. split; [exact H3|].
  split; [vm_compute; reflexivity|].
  exact (no_short_circuit_counts_all tick Cases.lenient_steps
           (Cases.reset_short Cases.lenient) Cases.lenient_done empty_debug
           lenient_steps_methods H1 H2 trace_inv_during_empty H3).
Defined.

Lemma kwargs_order_irrelevant_witness :
  NoDup [("a", PInt 1); ("b", PInt 2)].*1 ∧
  [("a", PInt 1); ("b", PInt 2)] ≡ₚ [("b", PInt 2); ("a", PInt 1)] ∧
  match set_kwargs cls [("a", PInt 1); ("b", PInt 2)] (instance false false),
        set_kwargs cls [("b", PInt 2); ("a", PInt 1)] (instance false false)
  with
  | inr (_, w1), inr (_, w2) => w1 = w2
  | inl e1, inl e2 =>
      (∃ k, e1 = AttributeError (k ++ " exists in self!")) ∧
      (∃ k, e2 = AttributeError (k ++ " exists in self!"))
  | _, _ => False
  end.
Proof.
  assert (H1 : NoDup [("a", PInt 1); ("b", PInt 2)].*1) by by_decision.
  assert (H2 : [("a", PInt 1); ("b", PInt 2)]
               ≡ₚ [("b", PInt 2); ("a", PInt 1)])
    by apply Permutation_swap.
  split; [exact H1|]. split; [exact H2|].
  exact (kwargs_order_irrelevant cls _ _ (instance false false) H1 H2).
Defined.

Lemma cls_plain_functions : Forall plain_function (methods cls).
Proof.
  repeat constructor; intros w w' (Hs & _ & Hf & _); simpl;
    by rewrite Hs, Hf.
Qed.

Lemma debug_is_transparent_witness :
  Forall plain_function (methods cls) ∧
  agree (instance false true) (instance true true) ∧
  (Workflow_call (R:=Empty_set) tick cls (instance true true) seqs None None).1
    = (Workflow_call (R:=Empty_set) tick cls (instance false true) seqs
         None None).1 ∧
  same_end
    (Workflow_call (R:=Empty_set) tick cls (instance false true) seqs
       None None).2
    (Workflow_call (R:=Empty_set) tick cls (instance true true) seqs
       None None).2.
Proof.
  assert (H1 : Forall plain_function (methods cls))
    by exact cls_plain_functions.
  assert (H2 : agree (instance false true) (instance true true))
    by (repeat split).
  split; [exact H1|]. split; [exact H2|].
  apply (debug_is_transparent tick cls (instance false true)
           (instance true true) seqs None None H1).
  - intros f item Hf. injection Hf as <-.
    intros w w' (_ & _ & Hfl & _). simpl. by rewrite Hfl.
  - intros cb [Hcb|Hcb]; discriminate Hcb.
  - reflexivity.
  - reflexivity.
  - reflexivity.
  - exact H2.
Defined.

Lemma failed_before_first_step_witness :
  call_initialize_state Cases.rejecting "ATAGACC"
      (set_failed false Runs.after_first) = inr (tt, Cases.rejected) ∧
  short_circuit Cases.rejected = true ∧
  failed Cases.rejected = true ∧
  process_item Cases.rejecting (_all_wf_methods tick Cases.rejecting Runs.self)
      "ATAGACC" Runs.after_first = inr (tt, Cases.rejected) ∧
  debug_info Cases.rejected = debug_info Runs.after_first ∧
  ∀ sc fc : option (Workflow string → Empty_set),
    yielded sc fc Cases.rejected
    = match fc with Some f => [inr (f Cases.rejected)] | None => [] end.
Proof.
  assert (H1 : call_initialize_state Cases.rejecting "ATAGACC"
                 (set_failed false Runs.after_first)
               = inr (tt, Cases.rejected))
    by (apply result_unit; vm_compute; reflexivity).
  assert (H2 : short_circuit Cases.rejected = true)
    by (vm_compute; reflexivity).
  assert (H3 : failed Cases.rejected = true) by (vm_compute; reflexivity).
  split; [exact H1|]. split; [exact H2|]. split; [exact H3|].
  exact (failed_before_first_step Cases.rejecting
           (_all_wf_methods tick Cases.rejecting Runs.self) "ATAGACC"
           Runs.after_first Cases.rejected H1 H2 H3).
Defined.
